(** * laserTest: the sweep-to-grid planner of the laser cut test generator

    A shallow embedding of [laserTest.py] (Python 2): the [Dimension] class
    and its three bounded subclasses, [TestParams.__init__] and the
    traversal loop of the main program, followed by the properties of the
    planner.

    Conventions of the embedding.
    - A Python float is an exact rational ([Q]); [==], [<] and [>] of the
      source are [Qeq_bool] and the boolean orders below.  [round(x, 2)] is
      Python 2's rounding to two decimals, halves away from zero.
    - The builtins [float()] and [int()] are parameters of the development
      ([py_float], [py_int]); [dec_float] and [dec_int], defined here, read
      plain decimal literals and instantiate them in the examples.
    - An exception is a value of [exn]; [str.format] is kept unevaluated as
      a template and its arguments.
    - The three [Dimension] objects live in the [TestParams] record; [xDim]
      and [yDim] are references ([dimId]) into it, as the source aliases
      the objects rather than copying them. *)

From Stdlib Require Import ZArith QArith Qround Qabs Lia Lqa List String Ascii Bool.
Import ListNotations.
Open Scope string_scope.
Open Scope Z_scope.
Open Scope Q_scope.

(** ** Exceptions and results *)

Inductive fmtarg : Type :=
| FloatArg (q : Q)
| StrArg (s : string).

Inductive verr : Type :=
| Unpack                      (* tuple unpacking of a [split] result *)
| BadFloat (s : string)       (* [float(s)] *)
| BadInt (s : string)         (* [int(s)] *)
| TooManyNext                 (* "Asked for too many next values" *)
| EmptyMax.                   (* [max()] of an empty sequence *)

Inductive exn : Type :=
| ValueError (why : verr)
| InputArgumentError (template : string) (args : list fmtarg)
| IndexError
| AttributeError.

Inductive result (A : Type) : Type :=
| Ok (a : A)
| Raise (e : exn).
Arguments Ok {A} a.
Arguments Raise {A} e.

Definition bind {A B : Type} (r : result A) (k : A -> result B) : result B :=
  match r with
  | Ok a => k a
  | Raise e => Raise e
  end.

Notation "x <- c ;; k" := (bind c (fun x => k))
  (at level 61, c at next level, right associativity).
Notation "' pat <- c ;; k" := (bind c (fun x => match x with pat => k end))
  (at level 61, pat pattern, c at next level, right associativity).

(** ** Float comparisons and rounding *)

Definition Qlt_bool (a b : Q) : bool := negb (Qle_bool b a).
Definition Qgt_bool (a b : Q) : bool := Qlt_bool b a.

(** [round(x, 2)] of Python 2: nearest multiple of 1/100, halves away from
    zero. *)
Definition round_half_away (y : Q) : Z :=
  if Qle_bool 0 y then Qfloor (y + (1 # 2)) else (- Qfloor (- y + (1 # 2)))%Z.

Definition round2 (x : Q) : Q := round_half_away (x * 100) # 100.

(** ** [str.split] with a one-character separator *)

Fixpoint split (sep : ascii) (s : string) : list string :=
  match s with
  | EmptyString => [EmptyString]
  | String c rest =>
      if Ascii.eqb c sep then EmptyString :: split sep rest
      else match split sep rest with
           | [] => [String c EmptyString]
           | p :: ps => String c p :: ps
           end
  end.

(** [a, b = l]: unpacking into exactly two names. *)
Definition unpack2 (l : list string) : result (string * string) :=
  match l with
  | [a; b] => Ok (a, b)
  | _ => Raise (ValueError Unpack)
  end.

(** ** Decimal literals, for the examples *)

Definition digit_of (c : ascii) : option Z :=
  let n := Z.of_nat (nat_of_ascii c) in
  if ((48 <=? n) && (n <=? 57))%Z then Some (n - 48)%Z else None.

Fixpoint digits_acc (acc : Z) (s : string) : option Z :=
  match s with
  | EmptyString => Some acc
  | String c rest =>
      match digit_of c with
      | Some d => digits_acc (10 * acc + d)%Z rest
      | None => None
      end
  end.

Definition digits (s : string) : option Z :=
  match s with
  | EmptyString => None
  | _ => digits_acc 0 s
  end.

Definition dec_int (s : string) : option Z :=
  match s with
  | String "-" rest => option_map Z.opp (digits rest)
  | String "+" rest => digits rest
  | _ => digits s
  end.

Definition dec_unsigned (s : string) : option Q :=
  match split "." s with
  | [i] => option_map inject_Z (digits i)
  | [i; f] =>
      match digits i, digits f with
      | Some a, Some b =>
          Some (inject_Z a + (b # Z.to_pos (10 ^ Z.of_nat (String.length f))))
      | _, _ => None
      end
  | _ => None
  end.

Definition dec_float (s : string) : option Q :=
  match s with
  | String "-" rest => option_map Qopp (dec_unsigned rest)
  | String "+" rest => dec_unsigned rest
  | _ => dec_unsigned s
  end.

(** ** class Dimension *)

Record Dimension : Type := mkDimension {
  name : string;
  minVal : Q;
  maxVal : Q;
  count : Z;
  incr : Q;
  fixed : bool;
  indx : Z;
  val : Q
}.

(** [Dimension.reset] *)
Definition reset (d : Dimension) : Dimension :=
  mkDimension (name d) (minVal d) (maxVal d) (count d) (incr d) (fixed d)
              0%Z (minVal d).

(** The warning written to stderr by [__init__] (construction goes on). *)
Definition inconsistent (mn mx : Q) (cnt : Z) : bool :=
  (Qeq_bool mn mx && negb (cnt =? 1)%Z) || (negb (Qeq_bool mn mx) && (cnt =? 1)%Z).

(** The part of [Dimension.__init__] after the parse: lines 184-193. *)
Definition new_Dimension (mn mx : Q) (cnt : Z) : Dimension :=
  reset (mkDimension "UNINITIALIZED" mn mx cnt
           (if (1 <? cnt)%Z then (mx - mn) / inject_Z (cnt - 1) else 0)
           ((cnt =? 1)%Z || Qeq_bool mn mx)
           0%Z mn).

(** [Dimension.next]: the result of the call and the object after it.  The
    index is bumped before the bound is tested, so it stays bumped when the
    call raises. *)
Definition next (d : Dimension) : result Q * Dimension :=
  if fixed d then (Ok (minVal d), d)
  else
    let i := (indx d + 1)%Z in
    let d1 := mkDimension (name d) (minVal d) (maxVal d) (count d) (incr d)
                          (fixed d) i (val d) in
    if (count d <=? i)%Z then (Raise (ValueError TooManyNext), d1)
    else
      let v := round2 (inject_Z i * ((maxVal d - minVal d) / inject_Z (count d - 1))
                       + minVal d) in
      (Ok v, mkDimension (name d) (minVal d) (maxVal d) (count d) (incr d)
                         (fixed d) i v).

(** [n] successive calls of [next]: what each returned, and the object
    after the last. *)
Fixpoint nexts (n : nat) (d : Dimension) : list (result Q) * Dimension :=
  match n with
  | O => ([], d)
  | S k => let '(r, d1) := next d in
           let '(rs, d2) := nexts k d1 in
           (r :: rs, d2)
  end.

(** ** Machine and test constants: classes Shapeoko2 and TestParams *)

Definition DEF_XY_SPEED : Q := 750.
Definition MIN_XY_SPEED : Q := 100.
Definition MAX_XY_SPEED : Q := 5000.
Definition DEF_POWER : Q := 1000.
Definition MIN_POWER : Q := 0.
Definition MAX_POWER : Q := 10000.
Definition DEF_Z_DISTANCE : Q := 10.
Definition MIN_Z_DISTANCE : Q := 10.
(** [MAX_Z_DISTANCE] is bound twice in the class body (100.0 at line 310,
    50.0 at line 323); the later binding is the value of the attribute. *)
Definition MAX_Z_DISTANCE : Q := 50.
Definition MAX_X_DISTANCE : Q := 150.
Definition MAX_Y_DISTANCE : Q := 150.
Definition KERF : Q := 2 # 10.
Definition MIN_X_SPACING : Q := 1.
Definition MAX_X_SPACING : Q := 10.
Definition MIN_Y_SPACING : Q := 5.
Definition MAX_Y_SPACING : Q := 10.
Definition DEF_LINE_HEIGHT : Q := 20.

(** ** class GcodeOutput

    The object, and what it has written so far: to its output (the file, or
    stdout for the path "-"), to stderr, and by [print].  [verbosity] and
    [comment], globals of the program, are arguments here; so are the name
    of the program and the time stamp that [__init__] reads, and [opens],
    which tells whether [open(file_, 'w')] succeeds. *)

Module GcodeOutput.

Inductive event : Type :=
| ToOutput (s : string)
| ToStderr (s : string)
| Printed (l : list string).

Inductive error : Type :=
| InvalidMode (mode : string)       (* ValueError *)
| UnableToWrite (file_ : string)    (* ValueError *)
| HeaderClosed.                     (* RuntimeError *)

Record t : Type := mk {
  gcodes : list string;
  mode : string;
  header : option string;
  trace : list event
}.

Definition OUTPUT_MODES : list string := ["FILE"; "GRBL"].

(** [str.upper] on ASCII letters. *)
Definition upper_ascii (c : ascii) : ascii :=
  let n := nat_of_ascii c in
  if (97 <=? n)%nat && (n <=? 122)%nat then ascii_of_nat (n - 32) else c.

Fixpoint upper (s : string) : string :=
  match s with
  | EmptyString => EmptyString
  | String c rest => String (upper_ascii c) (upper rest)
  end.

(** [sep.join(l)] *)
Fixpoint join (sep : string) (l : list string) : string :=
  match l with
  | [] => EmptyString
  | [a] => a
  | a :: rest => a ++ sep ++ join sep rest
  end.

Definition newline : string := String (ascii_of_nat 10) EmptyString.

(** Truth value of [self.header]: neither [None] nor the empty string. *)
Definition truthy (h : option string) : bool :=
  match h with
  | Some EmptyString => false
  | Some _ => true
  | None => false
  end.

(** [GcodeOutput.__init__].  In GRBL mode the attribute [header] is never
    bound; no method reads it in that mode, and it is [None] here. *)
Definition init (opens : string -> bool) (prog now : string)
    (mode file_ : string) : error + t :=
  let mode := upper mode in
  if negb (existsb (String.eqb mode) OUTPUT_MODES) then inl (InvalidMode mode)
  else if String.eqb mode "FILE" then
    if negb (String.eqb file_ "-") && negb (opens file_) then
      inl (UnableToWrite file_)
    else
      inr (mk [] mode
             (Some ("( Generated by: " ++ prog ++ " @ " ++ now ++ " )" ++ newline))
             [])
  else inr (mk [] mode None []).

Definition log (e : event) (o : t) : t :=
  mk (gcodes o) (mode o) (header o) (trace o ++ [e])%list.

(** [GcodeOutput.hdr]: the object after the call, and the exception if the
    call raised. *)
Definition hdr (verbosity : Z) (comment : bool) (str_ : string) (o : t)
  : t * option error :=
  let o := if (0 <? verbosity)%Z then log (ToStderr (str_ ++ newline)) o else o in
  if comment && String.eqb (mode o) "FILE" then
    if negb (truthy (header o)) then (o, Some HeaderClosed)
    else
      (mk (gcodes o) (mode o)
          (option_map (fun h => h ++ "( " ++ str_ ++ " )" ++ newline) (header o))
          (trace o), None)
  else (o, None).

(** [GcodeOutput.compose] *)
Definition compose (verbosity : Z) (new : list string) (o : t) : t :=
  let o := if (1 <? verbosity)%Z then log (Printed new) o else o in
  mk (gcodes o ++ new)%list (mode o) (header o) (trace o).

(** [GcodeOutput.getLen] *)
Definition getLen (o : t) : nat := List.length (gcodes o).

(** [GcodeOutput.postProcess] *)
Definition postProcess (o : t) : t := o.

(** [GcodeOutput.emit] *)
Definition emit (o : t) : t :=
  let o :=
    if String.eqb (mode o) "FILE" then
      let o :=
        if truthy (header o) then
          match header o with
          | Some h => mk (gcodes o) (mode o) None (trace o ++ [ToOutput h])%list
          | None => o
          end
        else o in
      log (ToOutput (join newline (gcodes o))) o
    else o in
  mk [] (mode o) (header o) (trace o).

(** Everything written to the output, in order, as one string. *)
Fixpoint written (tr : list event) : string :=
  match tr with
  | [] => EmptyString
  | ToOutput s :: rest => s ++ written rest
  | _ :: rest => written rest
  end.

(** One batch: compose its lines, then emit. *)
Definition emit_batch (verbosity : Z) (o : t) (batch : list string) : t :=
  emit (compose verbosity batch o).

(** The calls a program makes on the object, and the object after a
    sequence of them ([hdr] leaves the object as it is when it raises). *)
Inductive op : Type :=
| Hdr (verbosity : Z) (comment : bool) (str_ : string)
| Compose (verbosity : Z) (new : list string)
| PostProcess
| Emit.

Definition step (o : t) (x : op) : t :=
  match x with
  | Hdr v c s => fst (hdr v c s o)
  | Compose v l => compose v l o
  | PostProcess => postProcess o
  | Emit => emit o
  end.

Definition run (ops : list op) (o : t) : t := fold_left step ops o.

(** The strings of a list, one after the other. *)
Definition glue (l : list string) : string :=
  fold_right String.append EmptyString l.

(** The header line [hdr] makes of a string. *)
Definition header_line (str_ : string) : string :=
  "( " ++ str_ ++ " )" ++ newline.

(** [hdr] called on each string in turn, up to the first call that
    raises. *)
Fixpoint hdrs (verbosity : Z) (comment : bool) (strs : list string) (o : t)
  : t * option error :=
  match strs with
  | [] => (o, None)
  | s :: rest =>
      let '(o1, e) := hdr verbosity comment s o in
      match e with
      | Some _ => (o1, e)
      | None => hdrs verbosity comment rest o1
      end
  end.

End GcodeOutput.

Section Planner.

(** The builtins [float()] and [int()]: [None] where they raise
    [ValueError]. *)
Variable py_float : string -> option Q.
Variable py_int : string -> option Z.

Definition float_ (s : string) : result Q :=
  match py_float s with
  | Some q => Ok q
  | None => Raise (ValueError (BadFloat s))
  end.

Definition int_ (s : string) : result Z :=
  match py_int s with
  | Some z => Ok z
  | None => Raise (ValueError (BadInt s))
  end.

(** The [try] block of [Dimension.__init__]: lines 176-183. *)
Definition parse_spec (inputStr : string) : result (Q * Q * Z) :=
  '(rangeStr, countStr) <- unpack2 (split "," inputStr) ;;
  '(minStr, maxStr) <- unpack2 (split ":" rangeStr) ;;
  mn <- float_ minStr ;;
  mx <- float_ maxStr ;;
  cnt <- int_ countStr ;;
  Ok (mn, mx, cnt).

(** [Dimension.__init__] *)
Definition Dimension_init (inputStr : string) : result Dimension :=
  '(mn, mx, cnt) <- parse_spec inputStr ;;
  Ok (new_Dimension mn mx cnt).

(** ** The bounded dimensions

    Each subclass binds [self.name] and then runs [Dimension.__init__],
    which binds it again to "UNINITIALIZED": that is the name the object
    keeps. *)

Definition SpeedDim (speedStr : string) : result Dimension :=
  d <- Dimension_init speedStr ;;
  if Qlt_bool (minVal d) MIN_XY_SPEED then
    Raise (InputArgumentError "Minimum speed to slow (< {0})" [FloatArg MIN_XY_SPEED])
  else if Qgt_bool (maxVal d) MAX_XY_SPEED then
    Raise (InputArgumentError "Maximum speed to fast (> {0})" [FloatArg MAX_XY_SPEED])
  else Ok d.

Definition PowerDim (powerStr : string) : result Dimension :=
  d <- Dimension_init powerStr ;;
  if Qlt_bool (minVal d) MIN_POWER then
    Raise (InputArgumentError "Minimum power too low (< {0})" [FloatArg MIN_POWER])
  else if Qgt_bool (maxVal d) MAX_POWER then
    Raise (InputArgumentError "Maximum power too high (> {0})" [FloatArg MIN_POWER])
  else Ok d.

Definition DistanceDim (distanceStr : string) : result Dimension :=
  d <- Dimension_init distanceStr ;;
  if Qlt_bool (minVal d) MIN_Z_DISTANCE then
    Raise (InputArgumentError "Minimum distance too close (< {0})" [FloatArg MIN_Z_DISTANCE])
  else if Qgt_bool (maxVal d) MAX_Z_DISTANCE then
    Raise (InputArgumentError "Maximum distance too far (> {0})" [FloatArg MAX_Z_DISTANCE])
  else Ok d.

(** ** class TestParams *)

Inductive dimId : Type := Speed | Power | Distance.

Definition dimId_eqb (a b : dimId) : bool :=
  match a, b with
  | Speed, Speed | Power, Power | Distance, Distance => true
  | _, _ => false
  end.

Record TestParams : Type := mkTestParams {
  speed : Dimension;
  power : Dimension;
  distance : Dimension;
  lineHeight : Q;
  varDims : list dimId;
  numFixedDims : Z;
  numVarDims : Z;
  xDim : option dimId;
  yDim : option dimId;
  numRows : Z;
  numCols : Z;
  xIncr : Q;
  yIncr : Q;
  width : Q;
  height : Q
}.

(** [self.dims], as references. *)
Definition dims : list dimId := [Speed; Power; Distance].

(** The three objects before the plan record exists. *)
Definition Dims : Type := (Dimension * Dimension * Dimension)%type.

Definition get (ds : Dims) (i : dimId) : Dimension :=
  let '(s, p, d) := ds in
  match i with Speed => s | Power => p | Distance => d end.

(** [max(l, key=lambda item: item.count)]: the first item of maximal
    count. *)
Fixpoint max_count_from (ds : Dims) (best : dimId) (l : list dimId) : dimId :=
  match l with
  | [] => best
  | i :: rest =>
      if (count (get ds best) <? count (get ds i))%Z
      then max_count_from ds i rest
      else max_count_from ds best rest
  end.

Definition max_count (ds : Dims) (l : list dimId) : result dimId :=
  match l with
  | [] => Raise (ValueError EmptyMax)
  | i :: rest => Ok (max_count_from ds i rest)
  end.

(** [l[0]] *)
Definition first {A : Type} (l : list A) : result A :=
  match l with
  | [] => Raise IndexError
  | a :: _ => Ok a
  end.

(** [o.name] where [o] may be [None]. *)
Definition name_of (ds : Dims) (o : option dimId) : result string :=
  match o with
  | Some i => Ok (name (get ds i))
  | None => Raise AttributeError
  end.

Record Axes : Type := mkAxes {
  ax_varDims : list dimId;
  ax_numFixedDims : Z;
  ax_numVarDims : Z;
  ax_xDim : option dimId;
  ax_yDim : option dimId;
  ax_numRows : Z;
  ax_numCols : Z
}.

(** Lines 358-388: classification and axis assignment. *)
Definition assign_axes (ds : Dims) : result Axes :=
  let numDims := Z.of_nat (List.length dims) in
  let vs := filter (fun i => negb (fixed (get ds i))) dims in
  let nf := (Z.b2z (fixed (get ds Speed)) + Z.b2z (fixed (get ds Power))
             + Z.b2z (fixed (get ds Distance)))%Z in
  let nv := (numDims - nf)%Z in
  if (numDims <=? nv)%Z then
    Raise (InputArgumentError "Too many free dimensions, at least one must be fixed" [])
  else if (nv <? 2)%Z then
    if (nv =? 1)%Z then
      x <- first vs ;;
      Ok (mkAxes vs nf nv (Some x) None 1 (count (get ds x)))
    else
      Ok (mkAxes vs nf nv None None 1 1)
  else
    x <- max_count ds vs ;;
    y <- first (filter (fun i => negb (dimId_eqb i x)) vs) ;;
    Ok (mkAxes vs nf nv (Some x) (Some y) (count (get ds y)) (count (get ds x))).

(** Lines 390-399: the increment in X between two columns. *)
Definition x_spacing (ds : Dims) (ax : Axes) : result Q :=
  if (ax_numCols ax <=? 1)%Z then Ok 0
  else
    let xIncr := MAX_X_DISTANCE / inject_Z (ax_numCols ax - 1) in
    if Qlt_bool (xIncr - KERF) MIN_X_SPACING then
      nm <- name_of ds (ax_xDim ax) ;;
      Raise (InputArgumentError "Too many columns; reduce {0} count" [StrArg nm])
    else if Qgt_bool xIncr MAX_X_SPACING then Ok MAX_X_SPACING
    else Ok xIncr.

(** Lines 401-411: the increment in Y between two rows. *)
Definition y_spacing (ds : Dims) (ax : Axes) (lineHeight : Q) : result Q :=
  if (ax_numRows ax <? 2)%Z then Ok 0
  else
    let yIncr := (MAX_Y_DISTANCE - lineHeight) / inject_Z (ax_numRows ax - 1) in
    if Qlt_bool (yIncr - lineHeight) MIN_Y_SPACING then
      nm <- name_of ds (ax_yDim ax) ;;
      Raise (InputArgumentError "Too many rows; reduct count of {0}" [StrArg nm])
    else if Qgt_bool yIncr MAX_Y_SPACING then Ok (lineHeight + MAX_Y_SPACING)
    else Ok yIncr.

(** Lines 351-388 of [TestParams.__init__]: the three dimensions and the
    axes. *)
Definition plan_axes (speedTuple powerTuple distanceTuple : string)
  : result (Dims * Axes) :=
  s <- SpeedDim speedTuple ;;
  p <- PowerDim powerTuple ;;
  d <- DistanceDim distanceTuple ;;
  ax <- assign_axes (s, p, d) ;;
  Ok ((s, p, d), ax).

(** [TestParams.__init__] *)
Definition TestParams_init (speedTuple powerTuple distanceTuple : string)
    (lineHeight : Q) : result TestParams :=
  '(ds, ax) <- plan_axes speedTuple powerTuple distanceTuple ;;
  xi <- x_spacing ds ax ;;
  yi <- y_spacing ds ax lineHeight ;;
  let w := if (1 <? ax_numCols ax)%Z
           then xi * inject_Z (ax_numCols ax - 1) + KERF else KERF in
  let h := if (1 <? ax_numRows ax)%Z
           then yi * inject_Z (ax_numRows ax - 1) + lineHeight else lineHeight in
  Ok (mkTestParams (get ds Speed) (get ds Power) (get ds Distance) lineHeight
        (ax_varDims ax) (ax_numFixedDims ax) (ax_numVarDims ax)
        (ax_xDim ax) (ax_yDim ax) (ax_numRows ax) (ax_numCols ax) xi yi w h).

(** The object a reference stands for, and its update in place. *)
Definition dim_of (parms : TestParams) (i : dimId) : Dimension :=
  get (speed parms, power parms, distance parms) i.

Definition set_dim (parms : TestParams) (i : dimId) (d : Dimension) : TestParams :=
  let '(s, p, z) :=
    match i with
    | Speed => (d, power parms, distance parms)
    | Power => (speed parms, d, distance parms)
    | Distance => (speed parms, power parms, d)
    end in
  mkTestParams s p z (lineHeight parms) (varDims parms) (numFixedDims parms)
    (numVarDims parms) (xDim parms) (yDim parms) (numRows parms)
    (numCols parms) (xIncr parms) (yIncr parms) (width parms) (height parms).

(** [o.next()] where [o] may be [None]. *)
Definition next_of (parms : TestParams) (o : option dimId)
  : result (Q * TestParams) :=
  match o with
  | None => Raise AttributeError
  | Some i =>
      let '(r, d) := next (dim_of parms i) in
      v <- r ;;
      Ok (v, set_dim parms i d)
  end.

(** [TestParams.nextX] *)
Definition nextX (parms : TestParams) : result (Q * TestParams) :=
  next_of parms (xDim parms).

(** [TestParams.nextY] *)
Definition nextY (parms : TestParams) : result (Q * TestParams) :=
  match xDim parms with
  | None => Raise AttributeError
  | Some i =>
      let parms1 := set_dim parms i (reset (dim_of parms i)) in
      next_of parms1 (yDim parms1)
  end.

(** ** The traversal of the main program: lines 544-606 *)

Inductive gcode : Type :=
| G21
| G90
| G00 (x y z : Q)
| M03 (s : Q)
| G01 (x y f : Q)
| M05.

(** [GcodeOutput.compose]: the buffer grows at its end. *)
Definition compose (buffer gcodes : list gcode) : list gcode :=
  (buffer ++ gcodes)%list.

(** [xrange(n)] *)
Definition xrange (n : Z) : list Z := map Z.of_nat (seq 0 (Z.to_nat n)).

(** [for i in l: body] over a state [S], stopped by the first exception. *)
Fixpoint for_each {S : Type} (l : list Z) (body : Z -> S -> result S) (s : S)
  : result S :=
  match l with
  | [] => Ok s
  | i :: rest => s1 <- body i s ;; for_each rest body s1
  end.

(** The state the loops work on: the plan (with its three dimension
    objects) and the buffer [gcOut.gcodes]. *)
Definition LoopState : Type := (TestParams * list gcode)%type.

(** Body of the inner loop: lines 563-587. *)
Definition column_body (rowBase : Q) (colNum : Z) (st : LoopState)
  : result LoopState :=
  let '(parms, gcodes) := st in
  let x := inject_Z colNum * xIncr parms in
  let y := rowBase + lineHeight parms in
  let p := val (power parms) in
  let s := val (speed parms) in
  let gcodes := compose gcodes [M03 p; G01 x y s; M05] in
  if (colNum <? numCols parms - 1)%Z then
    '(nx, parms) <- nextX parms ;;
    let x := x + xIncr parms in
    let y := rowBase in
    let z := val (distance parms) in
    Ok (parms, compose gcodes [G00 x y z])
  else Ok (parms, gcodes).

(** Body of the outer loop: lines 559-601. *)
Definition row_body (rowNum : Z) (st : LoopState) : result LoopState :=
  let rowBase := inject_Z rowNum * yIncr (fst st) in
  '(parms, gcodes) <- for_each (xrange (numCols (fst st))) (column_body rowBase) st ;;
  if (rowNum <? numRows parms - 1)%Z then
    '(ny, parms) <- nextY parms ;;
    let rowBase := rowBase + yIncr parms in
    let z := val (distance parms) in
    Ok (parms, compose gcodes [G00 0 rowBase z])
  else Ok (parms, gcodes).

(** Preamble, the two loops and the return to the origin. *)
Definition traverse (parms : TestParams) : result LoopState :=
  let startZ := val (distance parms) in
  let preamble := [G21; G90; G00 0 0 startZ] in
  '(parms, gcodes) <- for_each (xrange (numRows parms)) row_body (parms, preamble) ;;
  Ok (parms, compose gcodes [G00 0 0 startZ]).

(** ** Cells: what the machine cuts

    Reading a G-code buffer back: [M03 p] sets the laser power, [G00] places
    the head (its [z] is the focus distance), and each [G01] is one cut, made
    at its feed rate with the power and the distance then in force. *)

Record Cell : Type := mkCell {
  cell_speed : Q;
  cell_power : Q;
  cell_distance : Q
}.

Fixpoint cells_from (z pw : Q) (g : list gcode) : list Cell :=
  match g with
  | [] => []
  | G00 _ _ z' :: rest => cells_from z' pw rest
  | M03 p :: rest => cells_from z p rest
  | G01 _ _ f :: rest => mkCell f pw z :: cells_from z pw rest
  | _ :: rest => cells_from z pw rest
  end.

Definition cells (g : list gcode) : list Cell := cells_from 0 0 g.

Definition Cell_red (c : Cell) : Cell :=
  mkCell (Qred (cell_speed c)) (Qred (cell_power c)) (Qred (cell_distance c)).

(** ** Vocabulary of the statements *)

(** [inputStr] reads as the triple [(mn, mx, cnt)]: two pieces around the
    comma, two around the colon, and the three conversions succeed. *)
Definition spec_of (inputStr : string) (mn mx : Q) (cnt : Z) : Prop :=
  exists rangeStr countStr minStr maxStr,
    split "," inputStr = [rangeStr; countStr]
    /\ split ":" rangeStr = [minStr; maxStr]
    /\ py_float minStr = Some mn
    /\ py_float maxStr = Some mx
    /\ py_int countStr = Some cnt.

(** The value of step [i], written as the documentation has it. *)
Definition value_at (mn mx : Q) (cnt i : Z) : Q :=
  round2 (mn + inject_Z i * (mx - mn) / inject_Z (cnt - 1)).

(** The indices [i+1 .. i+n]. *)
Fixpoint indices (i : Z) (n : nat) : list Z :=
  match n with
  | O => []
  | S k => (i + 1)%Z :: indices (i + 1) k
  end.




(** The place of a dimension in the fixed order speed, power, distance. *)
Definition dim_rank (i : dimId) : nat :=
  match i with Speed => 0 | Power => 1 | Distance => 2 end.

(** What the axis assignment leaves behind: no axis and one cell; or a
    column axis that varies, alone on one row or with a distinct row axis
    that varies too. *)
Definition axes_shape (ds : Dims) (ax : Axes) : Prop :=
  (ax_xDim ax = None /\ ax_yDim ax = None
   /\ ax_numCols ax = 1%Z /\ ax_numRows ax = 1%Z)
  \/ exists i,
       ax_xDim ax = Some i /\ fixed (get ds i) = false
       /\ count (get ds i) = ax_numCols ax
       /\ ((ax_yDim ax = None /\ ax_numRows ax = 1%Z)
           \/ exists j, ax_yDim ax = Some j /\ i <> j
                       /\ fixed (get ds j) = false
                       /\ count (get ds j) = ax_numRows ax).

(** Where the traversal stands on a grid of [nC] columns and [nR] rows:
    when there are several columns the column axis varies, counts [nC]
    steps and its index is [c]; when there are several rows the row axis is
    another object, varies, counts [nR] steps and its index is [r]. *)
Definition cursor (nC nR c r : Z) (parms : TestParams) : Prop :=
  numCols parms = nC /\ numRows parms = nR
  /\ ((1 < nC)%Z ->
      exists i, xDim parms = Some i
                /\ fixed (dim_of parms i) = false
                /\ count (dim_of parms i) = nC
                /\ indx (dim_of parms i) = c)
  /\ ((1 < nR)%Z ->
      exists i j, xDim parms = Some i /\ yDim parms = Some j /\ i <> j
                  /\ fixed (dim_of parms j) = false
                  /\ count (dim_of parms j) = nR
                  /\ indx (dim_of parms j) = r).

(** What call number [k] of [next] gives on a dimension that varies. *)
Definition nth_result (d : Dimension) (k : Z) : result Q :=
  if (k <? count d)%Z
  then Ok (value_at (minVal d) (maxVal d) (count d) k)
  else Raise (ValueError TooManyNext).


(** How many times [c] occurs in [s]. *)
Fixpoint occurrences (c : ascii) (s : string) : nat :=
  match s with
  | EmptyString => O
  | String a rest =>
      if Ascii.eqb a c then S (occurrences c rest) else occurrences c rest
  end.

(** The grid in closed form.  The value of a dimension at step [k]: its
    minimum at step 0, the rounded interpolation afterwards; the object at
    that step; the objects of a plan at row [r] and column [c]. *)
Definition axis_value (d : Dimension) (k : Z) : Q :=
  if (k =? 0)%Z then minVal d
  else value_at (minVal d) (maxVal d) (count d) k.

Definition advance (d : Dimension) (k : Z) : Dimension :=
  mkDimension (name d) (minVal d) (maxVal d) (count d) (incr d) (fixed d)
              k (axis_value d k).

Definition is_axis (o : option dimId) (i : dimId) : bool :=
  match o with
  | Some j => dimId_eqb j i
  | None => false
  end.

Definition dim_at (parms : TestParams) (r c : Z) (i : dimId) : Dimension :=
  if is_axis (xDim parms) i then advance (dim_of parms i) c
  else if is_axis (yDim parms) i then advance (dim_of parms i) r
  else dim_of parms i.

Definition plan_at (parms : TestParams) (r c : Z) : TestParams :=
  mkTestParams (dim_at parms r c Speed) (dim_at parms r c Power)
    (dim_at parms r c Distance) (lineHeight parms) (varDims parms)
    (numFixedDims parms) (numVarDims parms) (xDim parms) (yDim parms)
    (numRows parms) (numCols parms) (xIncr parms) (yIncr parms)
    (width parms) (height parms).

(** The G-codes of cell [(r, c)], of row [r], of the whole grid. *)
Definition cell_codes (parms : TestParams) (r c : Z) : list gcode :=
  ([M03 (val (dim_at parms r c Power));
    G01 (inject_Z c * xIncr parms)
        (inject_Z r * yIncr parms + lineHeight parms)
        (val (dim_at parms r c Speed));
    M05]
   ++ (if (c <? numCols parms - 1)%Z
       then [G00 (inject_Z c * xIncr parms + xIncr parms)
                 (inject_Z r * yIncr parms)
                 (val (dim_at parms r (c + 1) Distance))]
       else []))%list.

Definition row_codes (parms : TestParams) (r : Z) : list gcode :=
  (flat_map (cell_codes parms r) (xrange (numCols parms))
   ++ (if (r <? numRows parms - 1)%Z
       then [G00 0 (inject_Z r * yIncr parms + yIncr parms)
                 (val (dim_at parms (r + 1) 0 Distance))]
       else []))%list.

Definition grid_codes (parms : TestParams) : list gcode :=
  ([G21; G90; G00 0 0 (val (distance parms))]
   ++ flat_map (row_codes parms) (xrange (numRows parms))
   ++ [G00 0 0 (val (distance parms))])%list.

(** The cell at row [r] and column [c], and the cells in cutting order. *)
Definition grid_cell (parms : TestParams) (r c : Z) : Cell :=
  mkCell (val (dim_at parms r c Speed)) (val (dim_at parms r c Power))
         (val (dim_at parms r c Distance)).

Definition grid_cells (parms : TestParams) : list Cell :=
  flat_map (fun r => map (grid_cell parms r) (xrange (numCols parms)))
           (xrange (numRows parms)).

(** A plan as construction leaves it: every object at its start, a column
    axis that varies and counts the columns when there are several, and a
    distinct row axis that varies and counts the rows when there are
    several. *)
Definition ready (parms : TestParams) : Prop :=
  (forall i, indx (dim_of parms i) = 0%Z
             /\ val (dim_of parms i) = minVal (dim_of parms i))
  /\ ((1 < numCols parms)%Z ->
      exists i, xDim parms = Some i /\ fixed (dim_of parms i) = false
                /\ count (dim_of parms i) = numCols parms)
  /\ ((1 < numRows parms)%Z ->
      exists i j, xDim parms = Some i /\ yDim parms = Some j /\ i <> j
                  /\ fixed (dim_of parms j) = false
                  /\ count (dim_of parms j) = numRows parms).


(** ** Rounding *)

Lemma round_half_away_comp (x y : Q) :
  x == y -> round_half_away x = round_half_away y.
Proof.
  intros E. unfold round_half_away.
  assert (Qle_bool 0 x = Qle_bool 0 y) as ->.
  { destruct (Qle_bool 0 x) eqn:A, (Qle_bool 0 y) eqn:B; try reflexivity.
    - apply Qle_bool_iff in A. rewrite E in A. apply Qle_bool_iff in A. congruence.
    - apply Qle_bool_iff in B. rewrite <- E in B. apply Qle_bool_iff in B. congruence. }
  destruct (Qle_bool 0 y).
  - apply Qfloor_comp. rewrite E. reflexivity.
  - f_equal. apply Qfloor_comp. rewrite E. reflexivity.
Qed.

Lemma round2_comp (x y : Q) : x == y -> round2 x = round2 y.
Proof.
  intros E. unfold round2. f_equal. apply round_half_away_comp.
  rewrite E. reflexivity.
Qed.

Lemma Qle_bool_false (a b : Q) : Qle_bool a b = false <-> b < a.
Proof.
  split; intros H.
  - apply Qnot_le_lt. intros L. apply Qle_bool_iff in L. congruence.
  - destruct (Qle_bool a b) eqn:E; [|reflexivity].
    apply Qle_bool_iff in E. lra.
Qed.

Lemma Qlt_bool_iff (a b : Q) : Qlt_bool a b = true <-> a < b.
Proof.
  unfold Qlt_bool. rewrite negb_true_iff. apply Qle_bool_false.
Qed.

Lemma Qlt_bool_false (a b : Q) : Qlt_bool a b = false <-> b <= a.
Proof.
  unfold Qlt_bool. rewrite negb_false_iff. apply Qle_bool_iff.
Qed.







(** ** Parsing *)

Lemma unpack2_Ok (l : list string) (a b : string) :
  unpack2 l = Ok (a, b) <-> l = [a; b].
Proof.
  unfold unpack2. destruct l as [|x [|y [|z t]]]; split; intros H;
    try discriminate; congruence.
Qed.


Lemma parse_spec_Ok (s : string) (mn mx : Q) (cnt : Z) :
  parse_spec s = Ok (mn, mx, cnt) <-> spec_of s mn mx cnt.
Proof.
  unfold parse_spec, spec_of, float_, int_. split.
  - destruct (unpack2 (split "," s)) as [[r c]|] eqn:U1; simpl; [|discriminate].
    destruct (unpack2 (split ":" r)) as [[a b]|] eqn:U2; simpl; [|discriminate].
    destruct (py_float a) eqn:Fa; simpl; [|discriminate].
    destruct (py_float b) eqn:Fb; simpl; [|discriminate].
    destruct (py_int c) eqn:Ic; simpl; [|discriminate].
    intros H. injection H as -> -> ->.
    apply unpack2_Ok in U1. apply unpack2_Ok in U2.
    exists r, c, a, b. auto.
  - intros (r & c & a & b & S1 & S2 & Fa & Fb & Ic).
    rewrite S1. simpl. rewrite S2. simpl. rewrite Fa. simpl.
    rewrite Fb. simpl. rewrite Ic. reflexivity.
Qed.


Lemma Dimension_init_Ok (s : string) (d : Dimension) :
  Dimension_init s = Ok d ->
  exists mn mx cnt, spec_of s mn mx cnt /\ d = new_Dimension mn mx cnt.
Proof.
  unfold Dimension_init.
  destruct (parse_spec s) as [[[mn mx] cnt]|] eqn:P; simpl; [|discriminate].
  intros H. injection H as <-. apply parse_spec_Ok in P. eauto.
Qed.

Lemma Dimension_init_of_spec (s : string) (mn mx : Q) (cnt : Z) :
  spec_of s mn mx cnt -> Dimension_init s = Ok (new_Dimension mn mx cnt).
Proof.
  intros H. apply parse_spec_Ok in H. unfold Dimension_init. rewrite H.
  reflexivity.
Qed.


(** ** The sequence of [next] *)

Lemma next_step (d : Dimension) :
  fixed d = false -> (indx d + 1 < count d)%Z ->
  next d =
    (Ok (value_at (minVal d) (maxVal d) (count d) (indx d + 1)),
     mkDimension (name d) (minVal d) (maxVal d) (count d) (incr d) (fixed d)
       (indx d + 1)
       (value_at (minVal d) (maxVal d) (count d) (indx d + 1))).
Proof.
  intros F B. unfold next. rewrite F.
  assert ((count d <=? indx d + 1)%Z = false) as -> by (apply Z.leb_gt; lia).
  assert (round2 (inject_Z (indx d + 1)
                  * ((maxVal d - minVal d) / inject_Z (count d - 1)) + minVal d)
          = value_at (minVal d) (maxVal d) (count d) (indx d + 1)) as ->.
  { unfold value_at. apply round2_comp. reflexivity || (unfold Qdiv; ring). }
  reflexivity.
Qed.





Lemma inject_Z_pred_pos (cnt : Z) : (1 < cnt)%Z -> 0 < inject_Z (cnt - 1).
Proof.
  intros C. change 0 with (inject_Z 0). rewrite <- Zlt_Qlt. lia.
Qed.






(** ** [reset] *)

Lemma reset_next (d : Dimension) : reset (snd (next d)) = reset d.
Proof.
  unfold next, reset. destruct (fixed d) eqn:F; cbn [snd].
  - rewrite F. reflexivity.
  - destruct (count d <=? indx d + 1)%Z; reflexivity.
Qed.

Lemma reset_nexts (k : nat) : forall d : Dimension,
  reset (snd (nexts k d)) = reset d.
Proof.
  induction k as [|k IH]; intros d; [reflexivity|].
  cbn [nexts]. pose proof (reset_next d) as R.
  destruct (next d) as [r d1]. specialize (IH d1).
  destruct (nexts k d1) as [rs d2]. cbn [snd] in *. congruence.
Qed.

(** C5: after any number of calls of [next], [reset] brings the object back
    to its state at construction, so the calls of [next] that follow return
    what they return on a fresh object of the same triple. *)
Theorem reset_reproduces (mn mx : Q) (cnt : Z) (k n : nat) :
  reset (snd (nexts k (new_Dimension mn mx cnt))) = new_Dimension mn mx cnt
  /\ fst (nexts n (reset (snd (nexts k (new_Dimension mn mx cnt)))))
     = fst (nexts n (new_Dimension mn mx cnt)).
Proof.
  assert (reset (snd (nexts k (new_Dimension mn mx cnt)))
          = new_Dimension mn mx cnt) as E
    by (rewrite reset_nexts; reflexivity).
  split; [exact E|]. rewrite E. reflexivity.
Qed.

(** ** The bounded dimensions *)




Lemma bounded_Ok (d : Dimension) (lo hi : Q) (elo ehi : exn) (r : Dimension) :
  (if Qlt_bool (minVal d) lo then Raise elo
   else if Qgt_bool (maxVal d) hi then Raise ehi else Ok d) = Ok r ->
  r = d.
Proof.
  destruct (Qlt_bool (minVal d) lo); [discriminate|].
  destruct (Qgt_bool (maxVal d) hi); [discriminate|]. congruence.
Qed.

(** ** Axis assignment *)

Ltac axes_cases ds :=
  destruct ds as [[s p] d]; unfold assign_axes, dims;
  cbn [filter get List.length Z.of_nat Pos.of_succ_nat Pos.succ];
  destruct (fixed s) eqn:Fs, (fixed p) eqn:Fp, (fixed d) eqn:Fd;
  cbn [negb Z.b2z Z.add Z.sub Z.opp Z.pos_sub Z.leb Z.ltb Z.eqb Z.compare
       Pos.compare Pos.compare_cont Pos.add Pos.succ Pos.pred_double Z.succ_double
       Z.pred_double Z.double Pos.eqb
       first max_count max_count_from bind filter dimId_eqb get].

Lemma assign_axes_shape (ds : Dims) (ax : Axes) :
  assign_axes ds = Ok ax -> axes_shape ds ax.
Proof.
  axes_cases ds; try discriminate;
    repeat match goal with
           | |- context [(?a <? ?b)%Z] => destruct (a <? b)%Z
           end;
    cbn [filter dimId_eqb negb first bind];
    intros H; injection H as <-; unfold axes_shape; cbn;
    first [ left; repeat split; reflexivity
          | right; eexists; repeat split; try eassumption; try reflexivity;
            first [ left; split; reflexivity
                  | right; eexists; repeat split; try eassumption;
                    try reflexivity; discriminate ] ].
Qed.

(** With two variable dimensions [a] (first in the order) and [b]. *)
Lemma assign_axes_two (ds : Dims) (ax : Axes) (a b : dimId) :
  assign_axes ds = Ok ax -> ax_varDims ax = [a; b] ->
  (dim_rank a < dim_rank b)%nat
  /\ ax_xDim ax
     = Some (if (count (get ds a) <? count (get ds b))%Z then b else a)
  /\ ax_yDim ax
     = Some (if (count (get ds a) <? count (get ds b))%Z then a else b)
  /\ ax_numCols ax
     = count (get ds (if (count (get ds a) <? count (get ds b))%Z then b else a))
  /\ ax_numRows ax
     = count (get ds (if (count (get ds a) <? count (get ds b))%Z then a else b)).
Proof.
  axes_cases ds; try discriminate;
    repeat match goal with
           | |- context [(?a <? ?b)%Z] => destruct (a <? b)%Z eqn:?
           end;
    cbn [filter dimId_eqb negb first bind];
    intros H; injection H as <-; cbn [ax_varDims]; intros V;
    try discriminate; injection V as <- <-; cbn;
    repeat match goal with
           | E : (?a <? ?b)%Z = _ |- _ => rewrite E
           end;
    repeat split; lia.
Qed.

(** ** The plan *)

Lemma plan_axes_Ok (s p d : string) (ds : Dims) (ax : Axes) :
  plan_axes s p d = Ok (ds, ax) -> assign_axes ds = Ok ax.
Proof.
  unfold plan_axes.
  destruct (SpeedDim s) as [ds1|]; [|discriminate].
  destruct (PowerDim p) as [dp|]; [|discriminate].
  destruct (DistanceDim d) as [dd|]; [|discriminate]. cbn [bind].
  destruct (assign_axes (ds1, dp, dd)) as [ax1|] eqn:A; [|discriminate].
  cbn [bind]. intros H. injection H as <- <-. exact A.
Qed.

Lemma TestParams_init_Ok (s p d : string) (lh : Q) (parms : TestParams) :
  TestParams_init s p d lh = Ok parms ->
  exists ds ax xi yi,
    plan_axes s p d = Ok (ds, ax)
    /\ x_spacing ds ax = Ok xi
    /\ y_spacing ds ax lh = Ok yi
    /\ (forall i, dim_of parms i = get ds i)
    /\ varDims parms = ax_varDims ax
    /\ xDim parms = ax_xDim ax /\ yDim parms = ax_yDim ax
    /\ numRows parms = ax_numRows ax /\ numCols parms = ax_numCols ax
    /\ xIncr parms = xi /\ yIncr parms = yi /\ lineHeight parms = lh.
Proof.
  unfold TestParams_init.
  destruct (plan_axes s p d) as [[ds ax]|]; [|discriminate]. cbn [bind].
  destruct (x_spacing ds ax) as [xi|] eqn:X; [|discriminate]. cbn [bind].
  destruct (y_spacing ds ax lh) as [yi|] eqn:Y; [|discriminate]. cbn [bind].
  intros H. injection H as <-. exists ds, ax, xi, yi.
  repeat split; try assumption.
  intros i. destruct ds as [[a b] c]. destruct i; reflexivity.
Qed.

(** C6: with exactly two variable dimensions of different counts, the one
    with the larger count is the column axis and the other the row axis;
    the numbers of columns and rows are their counts. *)
Theorem larger_count_is_column (s p d : string) (lh : Q) (parms : TestParams)
    (a b : dimId)
    (Hinit : TestParams_init s p d lh = Ok parms)
    (Htwo : varDims parms = [a; b])
    (Hdiff : count (dim_of parms a) <> count (dim_of parms b)) :
  exists hi lo,
    ((hi = a /\ lo = b) \/ (hi = b /\ lo = a))
    /\ (count (dim_of parms lo) < count (dim_of parms hi))%Z
    /\ xDim parms = Some hi /\ yDim parms = Some lo
    /\ numCols parms = count (dim_of parms hi)
    /\ numRows parms = count (dim_of parms lo).
Proof.
  destruct (TestParams_init_Ok _ _ _ _ _ Hinit)
    as (ds & ax & xi & yi & P & _ & _ & G & V & X & Y & R & C & _).
  apply plan_axes_Ok in P. rewrite V in Htwo.
  destruct (assign_axes_two _ _ _ _ P Htwo) as (_ & Ax & Ay & Ac & Ar).
  rewrite !G in Hdiff. rewrite X, Y, R, C, Ax, Ay, Ac, Ar.
  destruct (count (get ds a) <? count (get ds b))%Z eqn:E.
  - exists b, a. apply Z.ltb_lt in E. split; [right; split; reflexivity|].
    rewrite !G. repeat split; auto.
  - exists a, b. apply Z.ltb_ge in E. split; [left; split; reflexivity|].
    rewrite !G. repeat split; auto. lia.
Qed.

(** C10: with exactly two variable dimensions of equal counts, the column
    axis is the one that comes first in the order speed, power, distance,
    and the other is the row axis. *)
Theorem equal_counts_first_is_column (s p d : string) (lh : Q)
    (parms : TestParams) (a b : dimId)
    (Hinit : TestParams_init s p d lh = Ok parms)
    (Htwo : varDims parms = [a; b])
    (Hsame : count (dim_of parms a) = count (dim_of parms b)) :
  (dim_rank a < dim_rank b)%nat
  /\ xDim parms = Some a /\ yDim parms = Some b
  /\ numCols parms = count (dim_of parms a)
  /\ numRows parms = count (dim_of parms b).
Proof.
  destruct (TestParams_init_Ok _ _ _ _ _ Hinit)
    as (ds & ax & xi & yi & P & _ & _ & G & V & X & Y & R & C & _).
  apply plan_axes_Ok in P. rewrite V in Htwo.
  destruct (assign_axes_two _ _ _ _ P Htwo) as (Rk & Ax & Ay & Ac & Ar).
  rewrite !G in Hsame. rewrite !G. rewrite X, Y, R, C, Ax, Ay, Ac, Ar.
  assert ((count (get ds a) <? count (get ds b))%Z = false) as ->
    by (apply Z.ltb_ge; lia).
  repeat split; auto.
Qed.

(** ** Spacing *)

Lemma x_spacing_Raise (ds : Dims) (ax : Axes) (e : exn) :
  x_spacing ds ax = Raise e ->
  (1 < ax_numCols ax)%Z
  /\ MAX_X_DISTANCE / inject_Z (ax_numCols ax - 1) - KERF < MIN_X_SPACING.
Proof.
  unfold x_spacing.
  destruct (ax_numCols ax <=? 1)%Z eqn:C; [discriminate|].
  apply Z.leb_gt in C.
  destruct (Qlt_bool _ MIN_X_SPACING) eqn:T.
  - apply Qlt_bool_iff in T. auto.
  - destruct (Qgt_bool _ MAX_X_SPACING); discriminate.
Qed.

Lemma y_spacing_Raise (ds : Dims) (ax : Axes) (lh : Q) (e : exn) :
  y_spacing ds ax lh = Raise e ->
  (2 <= ax_numRows ax)%Z
  /\ (MAX_Y_DISTANCE - lh) / inject_Z (ax_numRows ax - 1) - lh < MIN_Y_SPACING
  /\ (e = AttributeError
      \/ exists nm, e = InputArgumentError "Too many rows; reduct count of {0}"
                          [StrArg nm]).
Proof.
  unfold y_spacing.
  destruct (ax_numRows ax <? 2)%Z eqn:C; [discriminate|].
  apply Z.ltb_ge in C.
  destruct (Qlt_bool _ MIN_Y_SPACING) eqn:T.
  - apply Qlt_bool_iff in T. intros H. repeat split; auto.
    destruct (name_of ds (ax_yDim ax)) as [nm|e1] eqn:N; cbn [bind] in H;
      injection H as <-.
    + right. eauto.
    + left. destruct (ax_yDim ax); [discriminate|]. cbn in N. congruence.
  - destruct (Qgt_bool _ MAX_Y_SPACING); discriminate.
Qed.

(** C7: with more than one column the spacing in X is
    [MAX_X_DISTANCE / (numCols - 1)]; the plan is refused for its columns
    exactly when that spacing less the kerf is below [MIN_X_SPACING]; a
    spacing above [MAX_X_SPACING] is brought down to it and the plan is
    kept. *)
Theorem column_spacing (s p d : string) (lh : Q) (ds : Dims) (ax : Axes)
    (Hax : plan_axes s p d = Ok (ds, ax))
    (Hcols : (1 < ax_numCols ax)%Z) :
  let x0 := MAX_X_DISTANCE / inject_Z (ax_numCols ax - 1) in
  ((exists nm, TestParams_init s p d lh
               = Raise (InputArgumentError "Too many columns; reduce {0} count"
                          [StrArg nm]))
   <-> x0 - KERF < MIN_X_SPACING)
  /\ (forall parms, TestParams_init s p d lh = Ok parms ->
        numCols parms = ax_numCols ax
        /\ (x0 <= MAX_X_SPACING -> xIncr parms = x0)
        /\ (MAX_X_SPACING < x0 -> xIncr parms = MAX_X_SPACING)).
Proof.
  intros x0. pose proof (assign_axes_shape _ _ (plan_axes_Ok _ _ _ _ _ Hax)) as Sh.
  destruct Sh as [(_ & _ & C1 & _)|(i & Xi & _)]; [lia|].
  split.
  - unfold TestParams_init. rewrite Hax. cbn [bind]. split.
    + intros [nm H].
      destruct (x_spacing ds ax) as [xi|e] eqn:X.
      * cbn [bind] in H.
        destruct (y_spacing ds ax lh) as [yi|e] eqn:Y; [discriminate|].
        cbn [bind] in H. apply y_spacing_Raise in Y.
        destruct Y as (_ & _ & [->|[nm' ->]]); discriminate.
      * apply x_spacing_Raise in X. apply X.
    + intros T. exists (name (get ds i)). unfold x_spacing.
      assert ((ax_numCols ax <=? 1)%Z = false) as -> by (apply Z.leb_gt; lia).
      fold x0. apply Qlt_bool_iff in T. rewrite T. rewrite Xi. reflexivity.
  - intros parms H.
    destruct (TestParams_init_Ok _ _ _ _ _ H)
      as (ds' & ax' & xi & yi & P & X & _ & _ & _ & _ & _ & _ & C & XI & _).
    rewrite Hax in P. injection P as <- <-. rewrite C, XI.
    split; [reflexivity|]. unfold x_spacing in X.
    assert ((ax_numCols ax <=? 1)%Z = false) as E by (apply Z.leb_gt; lia).
    rewrite E in X. fold x0 in X.
    destruct (Qlt_bool (x0 - KERF) MIN_X_SPACING).
    { destruct (name_of ds (ax_xDim ax)); discriminate. }
    unfold Qgt_bool in X.
    destruct (Qlt_bool MAX_X_SPACING x0) eqn:G; injection X as <-.
    + apply Qlt_bool_iff in G. split; [lra|reflexivity].
    + apply Qlt_bool_false in G. split; [reflexivity|lra].
Qed.


(** ** The traversal *)

Lemma dim_of_set_same (parms : TestParams) (i : dimId) (d : Dimension) :
  dim_of (set_dim parms i d) i = d.
Proof. destruct i; reflexivity. Qed.

Lemma dim_of_set_other (parms : TestParams) (i j : dimId) (d : Dimension) :
  i <> j -> dim_of (set_dim parms i d) j = dim_of parms j.
Proof. destruct i, j; intros N; try reflexivity; contradiction. Qed.

Lemma set_dim_grid (parms : TestParams) (i : dimId) (d : Dimension) :
  numCols (set_dim parms i d) = numCols parms
  /\ numRows (set_dim parms i d) = numRows parms
  /\ xDim (set_dim parms i d) = xDim parms
  /\ yDim (set_dim parms i d) = yDim parms.
Proof. destruct i; repeat split. Qed.

Lemma for_each_seq {St : Type} (I : Z -> St -> Prop) (body : Z -> St -> result St)
    (m : nat) : forall (a : nat) (s0 : St),
  I (Z.of_nat a) s0 ->
  (forall k s, (Z.of_nat a <= k < Z.of_nat (a + m))%Z -> I k s ->
     exists s', body k s = Ok s' /\ I (k + 1)%Z s') ->
  exists s', for_each (map Z.of_nat (seq a m)) body s0 = Ok s'
             /\ I (Z.of_nat (a + m)) s'.
Proof.
  induction m as [|m IH]; intros a s0 H0 Hstep.
  - exists s0. rewrite Nat.add_0_r. split; [reflexivity|exact H0].
  - cbn [seq map for_each].
    destruct (Hstep (Z.of_nat a) s0) as (s1 & B & I1); [lia|exact H0|].
    rewrite B. cbn [bind].
    destruct (IH (S a) s1) as (s2 & F & I2).
    + replace (Z.of_nat (S a)) with (Z.of_nat a + 1)%Z by lia. exact I1.
    + intros k s Hk. apply Hstep. lia.
    + exists s2. split; [exact F|].
      replace (a + S m)%nat with (S a + m)%nat by lia. exact I2.
Qed.

Lemma for_each_xrange {St : Type} (I : Z -> St -> Prop)
    (body : Z -> St -> result St) (n : Z) (s0 : St) :
  I 0%Z s0 ->
  (forall k s, (0 <= k < n)%Z -> I k s ->
     exists s', body k s = Ok s' /\ I (k + 1)%Z s') ->
  exists s', for_each (xrange n) body s0 = Ok s' /\ I (Z.max 0 n) s'.
Proof.
  intros H0 Hstep. unfold xrange.
  destruct (for_each_seq I body (Z.to_nat n) 0 s0) as (s' & F & Is).
  - exact H0.
  - intros k s Hk. apply Hstep. lia.
  - exists s'. split; [exact F|].
    replace (Z.max 0 n) with (Z.of_nat (0 + Z.to_nat n)) by lia. exact Is.
Qed.

Lemma nextX_advances (nC nR c r : Z) (parms : TestParams) :
  cursor nC nR c r parms -> (0 <= c < nC - 1)%Z ->
  exists v parms', nextX parms = Ok (v, parms')
                   /\ cursor nC nR (c + 1) r parms'
                   /\ lineHeight parms' = lineHeight parms.
Proof.
  intros (HC & HR & HX & HY) Hc.
  destruct HX as (i & Xi & Fi & Ci & Ii); [lia|].
  unfold nextX, next_of. rewrite Xi. rewrite next_step; [|assumption|lia].
  cbn [bind].
  eexists; eexists. split; [reflexivity|].
  destruct (set_dim_grid parms i
              (mkDimension (name (dim_of parms i)) (minVal (dim_of parms i))
                 (maxVal (dim_of parms i)) (count (dim_of parms i))
                 (incr (dim_of parms i)) (fixed (dim_of parms i))
                 (indx (dim_of parms i) + 1)
                 (value_at (minVal (dim_of parms i)) (maxVal (dim_of parms i))
                    (count (dim_of parms i)) (indx (dim_of parms i) + 1))))
    as (G1 & G2 & G3 & G4).
  split; [|destruct i; reflexivity].
  unfold cursor. rewrite G1, G2, G3, G4. repeat split; try assumption.
  - intros _. exists i. rewrite dim_of_set_same. cbn [fixed count indx].
    repeat split; auto. lia.
  - intros Hr. destruct (HY Hr) as (i' & j & Xi' & Yj & N & Fj & Cj & Ij).
    exists i', j. rewrite Xi in Xi'. injection Xi' as <-.
    rewrite dim_of_set_other by exact N. repeat split; auto.
Qed.

Lemma nextY_advances (nC nR c r : Z) (parms : TestParams) :
  cursor nC nR c r parms -> (0 <= r < nR - 1)%Z ->
  exists v parms', nextY parms = Ok (v, parms')
                   /\ cursor nC nR 0 (r + 1) parms'
                   /\ lineHeight parms' = lineHeight parms.
Proof.
  intros (HC & HR & HX & HY) Hr.
  destruct HY as (i & j & Xi & Yj & N & Fj & Cj & Ij); [lia|].
  unfold nextY. rewrite Xi.
  destruct (set_dim_grid parms i (reset (dim_of parms i))) as (G1 & G2 & G3 & G4).
  unfold next_of. rewrite G4, Yj.
  rewrite next_step;
    rewrite ?dim_of_set_other by exact N; [|assumption|lia].
  cbn [bind]. eexists; eexists. split; [reflexivity|].
  match goal with |- cursor _ _ _ _ (set_dim ?q j ?dj) /\ _ =>
    destruct (set_dim_grid q j dj) as (K1 & K2 & K3 & K4) end.
  split; [|destruct i, j; reflexivity].
  unfold cursor. rewrite K1, K2, K3, K4, G1, G2, G3, G4.
  repeat split; try assumption.
  - intros Hc. destruct (HX Hc) as (i' & Xi' & Fi & Ci & Ii).
    rewrite Xi in Xi'. injection Xi' as <-. exists i.
    rewrite dim_of_set_other by auto. rewrite dim_of_set_same.
    repeat split; auto.
  - intros _. exists i, j. rewrite dim_of_set_same. cbn [fixed count indx].
    repeat split; auto. lia.
Qed.

Lemma column_loop (nC nR r : Z) (rowBase : Q) (st : LoopState) :
  cursor nC nR 0 r (fst st) ->
  exists st', for_each (xrange nC) (column_body rowBase) st = Ok st'
              /\ (exists c, cursor nC nR c r (fst st'))
              /\ lineHeight (fst st') = lineHeight (fst st).
Proof.
  intros H0.
  destruct (for_each_xrange
              (fun c st' => (exists c', cursor nC nR c' r (fst st')
                                        /\ ((1 < nC)%Z -> c' = Z.min c (nC - 1)))
                            /\ lineHeight (fst st') = lineHeight (fst st))
              (column_body rowBase) nC st) as (st' & F & (c' & Cu & _) & L).
  - split; [|reflexivity]. exists 0%Z. split; [exact H0|lia].
  - intros k [parms g] Hk [(c' & Cu & Hc') L]. cbn [fst] in *.
    unfold column_body.
    assert (numCols parms = nC) as -> by apply Cu.
    destruct (k <? nC - 1)%Z eqn:E.
    + apply Z.ltb_lt in E.
      destruct (nextX_advances nC nR c' r parms Cu) as (v & parms' & NX & Cu' & L');
        [lia|].
      rewrite NX. cbn [bind]. eexists. split; [reflexivity|]. cbn [fst].
      split; [|congruence]. exists (c' + 1)%Z. split; [exact Cu'|lia].
    + apply Z.ltb_ge in E. eexists. split; [reflexivity|]. cbn [fst].
      split; [|exact L]. exists c'. split; [exact Cu|lia].
  - exists st'. repeat split; eauto.
Qed.

Lemma row_loop (nC nR : Z) (st : LoopState) :
  cursor nC nR 0 0 (fst st) ->
  exists st', for_each (xrange nR) row_body st = Ok st'.
Proof.
  intros H0.
  destruct (for_each_xrange
              (fun r st' => (r < nR)%Z -> cursor nC nR 0 r (fst st'))
              row_body nR st) as (st' & F & _).
  - intros _. exact H0.
  - intros k st1 Hk Cu. specialize (Cu ltac:(lia)).
    unfold row_body.
    assert (numCols (fst st1) = nC) as -> by apply Cu.
    destruct (column_loop nC nR k (inject_Z k * yIncr (fst st1)) st1 Cu)
      as ([parms g] & F & (c & Cu1) & _).
    rewrite F. cbn [bind fst] in *.
    assert (numRows parms = nR) as -> by apply Cu1.
    destruct (k <? nR - 1)%Z eqn:E.
    + apply Z.ltb_lt in E.
      destruct (nextY_advances nC nR c k parms Cu1) as (v & parms' & NY & Cu' & _);
        [lia|].
      rewrite NY. cbn [bind]. eexists. split; [reflexivity|]. cbn [fst].
      intros _. exact Cu'.
    + apply Z.ltb_ge in E. eexists. split; [reflexivity|]. intros; lia.
  - exists st'. exact F.
Qed.

Lemma Dimension_init_fresh (s : string) (d : Dimension) :
  Dimension_init s = Ok d -> indx d = 0%Z.
Proof.
  intros H. apply Dimension_init_Ok in H.
  destruct H as (mn & mx & cnt & _ & ->). reflexivity.
Qed.

Lemma plan_axes_fresh (s p d : string) (ds : Dims) (ax : Axes) :
  plan_axes s p d = Ok (ds, ax) -> forall i, indx (get ds i) = 0%Z.
Proof.
  unfold plan_axes, SpeedDim, PowerDim, DistanceDim.
  destruct (Dimension_init s) as [a|] eqn:A; [|discriminate]. cbn [bind].
  destruct (if Qlt_bool (minVal a) MIN_XY_SPEED then _ else _) as [a'|] eqn:A';
    [|discriminate].
  apply bounded_Ok in A'. subst a'. cbn [bind].
  destruct (Dimension_init p) as [b|] eqn:B; [|discriminate]. cbn [bind].
  destruct (if Qlt_bool (minVal b) MIN_POWER then _ else _) as [b'|] eqn:B';
    [|discriminate].
  apply bounded_Ok in B'. subst b'. cbn [bind].
  destruct (Dimension_init d) as [c|] eqn:C; [|discriminate]. cbn [bind].
  destruct (if Qlt_bool (minVal c) MIN_Z_DISTANCE then _ else _) as [c'|] eqn:C';
    [|discriminate].
  apply bounded_Ok in C'. subst c'. cbn [bind].
  destruct (assign_axes (a, b, c)); [|discriminate]. cbn [bind].
  intros H. injection H as <- <-.
  apply Dimension_init_fresh in A, B, C.
  intros i. destruct i; assumption.
Qed.

Lemma init_cursor (s p d : string) (lh : Q) (parms : TestParams) :
  TestParams_init s p d lh = Ok parms ->
  cursor (numCols parms) (numRows parms) 0 0 parms.
Proof.
  intros H.
  destruct (TestParams_init_Ok _ _ _ _ _ H)
    as (ds & ax & xi & yi & P & _ & _ & G & _ & X & Y & R & C & _).
  pose proof (plan_axes_fresh _ _ _ _ _ P) as Fr.
  pose proof (assign_axes_shape _ _ (plan_axes_Ok _ _ _ _ _ P)) as Sh.
  unfold cursor. rewrite X, Y, R, C. repeat split.
  - intros Hc. destruct Sh as [(_ & _ & C1 & _)|(i & Xi & Fi & Ci & _)]; [lia|].
    exists i. rewrite G. auto.
  - intros Hr.
    destruct Sh as [(_ & _ & _ & R1)|(i & Xi & _ & _ & [[_ R1]|(j & Yj & N & Fj & Cj)])];
      try lia.
    exists i, j. rewrite G. repeat split; auto.
Qed.

(** C9: the traversal of a plan that was constructed runs to its end: no
    call of [next] made by the two loops raises, so the test
    [indx >= count] never succeeds there. *)
Theorem traversal_never_exhausts (s p d : string) (lh : Q) (parms : TestParams)
    (Hinit : TestParams_init s p d lh = Ok parms) :
  (exists st, traverse parms = Ok st)
  /\ traverse parms <> Raise (ValueError TooManyNext).
Proof.
  assert (exists st, traverse parms = Ok st) as [st E].
  { unfold traverse.
    destruct (row_loop (numCols parms) (numRows parms)
                (parms, [G21; G90; G00 0 0 (val (distance parms))]))
      as ([parms' g] & F).
    - apply (init_cursor _ _ _ _ _ Hinit).
    - rewrite F. cbn [bind]. eexists. reflexivity. }
  split; [exists st; exact E|]. rewrite E. discriminate.
Qed.

(** ** The life of a dimension *)

Lemma next_any (d : Dimension) :
  fixed d = false ->
  fst (next d) = nth_result d (indx d + 1)
  /\ fixed (snd (next d)) = false
  /\ indx (snd (next d)) = (indx d + 1)%Z
  /\ minVal (snd (next d)) = minVal d /\ maxVal (snd (next d)) = maxVal d
  /\ count (snd (next d)) = count d.
Proof.
  intros F. unfold nth_result.
  destruct (indx d + 1 <? count d)%Z eqn:E.
  - apply Z.ltb_lt in E. rewrite (next_step d F E).
    cbn [fst snd fixed indx minVal maxVal count]. repeat split; auto.
  - apply Z.ltb_ge in E. unfold next. rewrite F.
    assert ((count d <=? indx d + 1)%Z = true) as -> by (apply Z.leb_le; lia).
    cbn [fst snd fixed indx minVal maxVal count]. repeat split; auto.
Qed.

Lemma nexts_any (n : nat) : forall d : Dimension,
  fixed d = false ->
  fst (nexts n d) = map (nth_result d) (indices (indx d) n)
  /\ indx (snd (nexts n d)) = (indx d + Z.of_nat n)%Z.
Proof.
  induction n as [|k IH]; intros d F.
  - cbn. split; [reflexivity|lia].
  - cbn [nexts indices map].
    destruct (next_any d F) as (R & F1 & I1 & Mn & Mx & C).
    destruct (next d) as [r d1]. cbn [fst snd] in *.
    destruct (IH d1 F1) as [V I]. destruct (nexts k d1) as [rs d2].
    cbn [fst snd] in *. rewrite I1 in *. split.
    + rewrite R, V. f_equal. apply map_ext. intros i. unfold nth_result.
      rewrite Mn, Mx, C. reflexivity.
    + lia.
Qed.

(** X1: on a dimension that varies, call number [k] of [next] returns the
    value of step [k] when [k < count] and raises ValueError otherwise; the
    index counts every call, the refused ones too.  With a count of 0 or
    below every call raises. *)
Theorem next_exhausts (mn mx : Q) (cnt : Z) (n : nat)
    (Hcnt : cnt <> 1%Z) (Hne : ~ mn == mx) :
  fst (nexts n (new_Dimension mn mx cnt))
  = map (fun k => if (k <? cnt)%Z then Ok (value_at mn mx cnt k)
                  else Raise (ValueError TooManyNext))
        (indices 0 n)
  /\ indx (snd (nexts n (new_Dimension mn mx cnt))) = Z.of_nat n.
Proof.
  assert (fixed (new_Dimension mn mx cnt) = false) as F.
  { cbn. apply orb_false_iff. split; [apply Z.eqb_neq; exact Hcnt|].
    destruct (Qeq_bool mn mx) eqn:E; [|reflexivity].
    apply Qeq_bool_iff in E. contradiction. }
  destruct (nexts_any n _ F) as [V I]. split; [exact V|exact I].
Qed.

Lemma nexts_fixed (n : nat) (d : Dimension) :
  fixed d = true -> nexts n d = (repeat (Ok (minVal d)) n, d).
Proof.
  intros F. induction n as [|k IH]; [reflexivity|].
  cbn [nexts repeat]. unfold next at 1. rewrite F. rewrite IH. reflexivity.
Qed.

(** X2: a dimension whose count is 1, or whose ends are equal, is fixed:
    [next] returns [minVal] every time and leaves the object as it was
    constructed, however often it is called. *)
Theorem next_on_fixed (mn mx : Q) (cnt : Z) (n : nat)
    (Hfix : cnt = 1%Z \/ mn == mx) :
  nexts n (new_Dimension mn mx cnt)
  = (repeat (Ok mn) n, new_Dimension mn mx cnt).
Proof.
  apply (nexts_fixed n (new_Dimension mn mx cnt)).
  cbn. apply orb_true_iff. destruct Hfix as [->|E]; [left; reflexivity|].
  right. apply Qeq_bool_iff. exact E.
Qed.

Lemma bounded_iff (d : Dimension) (lo hi : Q) (elo ehi : exn) (r : Dimension) :
  (if Qlt_bool (minVal d) lo then Raise elo
   else if Qgt_bool (maxVal d) hi then Raise ehi else Ok d) = Ok r
  <-> r = d /\ lo <= minVal d /\ maxVal d <= hi.
Proof.
  unfold Qgt_bool.
  destruct (Qlt_bool (minVal d) lo) eqn:A;
    [apply Qlt_bool_iff in A|apply Qlt_bool_false in A].
  - split; [discriminate|]. intros (_ & L & _). lra.
  - destruct (Qlt_bool hi (maxVal d)) eqn:B;
      [apply Qlt_bool_iff in B|apply Qlt_bool_false in B].
    + split; [discriminate|]. intros (_ & _ & L). lra.
    + split; [intros H; injection H as <-; auto|intros (-> & _); reflexivity].
Qed.

Lemma Dimension_init_iff (s : string) (d : Dimension) :
  Dimension_init s = Ok d
  <-> exists mn mx cnt, spec_of s mn mx cnt /\ d = new_Dimension mn mx cnt.
Proof.
  split; [apply Dimension_init_Ok|].
  intros (mn & mx & cnt & H & ->). apply Dimension_init_of_spec. exact H.
Qed.

Ltac accept_iff :=
  let a := fresh "a" in
  let E := fresh "E" in
  let H := fresh "H" in
  split;
  [ intros H;
    match type of H with
    | context [Dimension_init ?s] =>
        destruct (Dimension_init s) as [a|] eqn:E; [|discriminate H]
    end;
    cbn [bind] in H; apply bounded_iff in H; destruct H as (-> & ? & ?);
    apply Dimension_init_Ok in E;
    destruct E as (mn & mx & cnt & ? & ->);
    exists mn, mx, cnt; cbn [minVal maxVal new_Dimension reset] in *; auto
  | intros (mn & mx & cnt & H & -> & ? & ?);
    rewrite (Dimension_init_of_spec _ _ _ _ H); cbn [bind];
    apply bounded_iff; cbn [minVal maxVal new_Dimension reset]; auto ].

(** X3: a bounded dimension is accepted exactly when its string reads as a
    triple, its minimum is not below the domain minimum and its maximum is
    not above the domain maximum (speed 100..5000, power 0..10000, distance
    10..50).  Nothing else is tested: not that the minimum is below the
    maximum, nor the minimum against the upper limit. *)
Theorem bounded_accepts (s : string) (d : Dimension) :
  (SpeedDim s = Ok d
   <-> exists mn mx cnt, spec_of s mn mx cnt /\ d = new_Dimension mn mx cnt
                         /\ MIN_XY_SPEED <= mn /\ mx <= MAX_XY_SPEED)
  /\ (PowerDim s = Ok d
      <-> exists mn mx cnt, spec_of s mn mx cnt /\ d = new_Dimension mn mx cnt
                            /\ MIN_POWER <= mn /\ mx <= MAX_POWER)
  /\ (DistanceDim s = Ok d
      <-> exists mn mx cnt, spec_of s mn mx cnt /\ d = new_Dimension mn mx cnt
                            /\ MIN_Z_DISTANCE <= mn /\ mx <= MAX_Z_DISTANCE).
Proof.
  unfold SpeedDim, PowerDim, DistanceDim.
  split; [accept_iff|split; accept_iff].
Qed.






(** ** Separators *)

Lemma split_length (sep : ascii) (s : string) :
  List.length (split sep s) = S (occurrences sep s).
Proof.
  induction s as [|c rest IH]; [reflexivity|].
  cbn [split occurrences]. destruct (Ascii.eqb c sep).
  - cbn [List.length]. rewrite IH. reflexivity.
  - destruct (split sep rest) as [|p ps]; [discriminate IH|].
    cbn [List.length] in *. exact IH.
Qed.

Lemma unpack2_count (sep : ascii) (s : string) :
  occurrences sep s <> 1%nat ->
  unpack2 (split sep s) = Raise (ValueError Unpack).
Proof.
  intros N. pose proof (split_length sep s) as L.
  destruct (split sep s) as [|a [|b [|c t]]]; try reflexivity.
  cbn in L. congruence.
Qed.

(** X5: whatever [float()] and [int()] accept, a string is refused with
    ValueError at the unpacking when it does not hold exactly one comma, or
    when the piece before the comma does not hold exactly one colon. *)
Theorem separators_required (s : string) :
  (occurrences "," s <> 1%nat ->
     Dimension_init s = Raise (ValueError Unpack))
  /\ (occurrences "," s = 1%nat ->
      occurrences ":" (hd EmptyString (split "," s)) <> 1%nat ->
      Dimension_init s = Raise (ValueError Unpack)).
Proof.
  unfold Dimension_init, parse_spec. split.
  - intros N. rewrite (unpack2_count _ _ N). reflexivity.
  - intros E N. pose proof (split_length "," s) as L. rewrite E in L.
    destruct (split "," s) as [|a [|b [|c t]]]; try discriminate L.
    cbn [unpack2 bind hd] in *. rewrite (unpack2_count _ _ N). reflexivity.
Qed.

(** ** The shape of a plan *)

Lemma TestParams_init_record (s p d : string) (lh : Q) (parms : TestParams) :
  TestParams_init s p d lh = Ok parms ->
  exists ds ax xi yi,
    plan_axes s p d = Ok (ds, ax)
    /\ x_spacing ds ax = Ok xi
    /\ y_spacing ds ax lh = Ok yi
    /\ parms
       = mkTestParams (get ds Speed) (get ds Power) (get ds Distance) lh
           (ax_varDims ax) (ax_numFixedDims ax) (ax_numVarDims ax)
           (ax_xDim ax) (ax_yDim ax) (ax_numRows ax) (ax_numCols ax) xi yi
           (if (1 <? ax_numCols ax)%Z
            then xi * inject_Z (ax_numCols ax - 1) + KERF else KERF)
           (if (1 <? ax_numRows ax)%Z
            then yi * inject_Z (ax_numRows ax - 1) + lh else lh).
Proof.
  unfold TestParams_init.
  destruct (plan_axes s p d) as [[ds ax]|]; [|discriminate]. cbn [bind].
  destruct (x_spacing ds ax) as [xi|] eqn:X; [|discriminate]. cbn [bind].
  destruct (y_spacing ds ax lh) as [yi|] eqn:Y; [|discriminate]. cbn [bind].
  intros H. injection H as <-. exists ds, ax, xi, yi. auto.
Qed.

Lemma plan_axes_iff (s p d : string) (ds : Dims) (ax : Axes) :
  plan_axes s p d = Ok (ds, ax)
  <-> SpeedDim s = Ok (get ds Speed) /\ PowerDim p = Ok (get ds Power)
      /\ DistanceDim d = Ok (get ds Distance) /\ assign_axes ds = Ok ax.
Proof.
  unfold plan_axes. destruct ds as [[a b] c]. cbn [get]. split.
  - destruct (SpeedDim s) as [a'|]; [|discriminate].
    destruct (PowerDim p) as [b'|]; [|discriminate].
    destruct (DistanceDim d) as [c'|]; [|discriminate]. cbn [bind].
    destruct (assign_axes (a', b', c')) as [ax'|] eqn:A; [|discriminate].
    cbn [bind]. intros H. injection H as <- <- <- <-. auto.
  - intros (-> & -> & -> & A). cbn [bind]. rewrite A. reflexivity.
Qed.

Lemma assign_axes_counts (ds : Dims) (ax : Axes) :
  assign_axes ds = Ok ax ->
  ax_varDims ax = filter (fun i => negb (fixed (get ds i))) dims
  /\ (ax_numFixedDims ax + ax_numVarDims ax = 3)%Z
  /\ ax_numVarDims ax = Z.of_nat (List.length (ax_varDims ax))
  /\ (ax_numVarDims ax <= 2)%Z.
Proof.
  axes_cases ds; try discriminate;
    repeat match goal with
           | |- context [(?a <? ?b)%Z] => destruct (a <? b)%Z
           end;
    cbn [filter dimId_eqb negb first bind];
    intros H; injection H as <-; cbn [ax_varDims ax_numFixedDims ax_numVarDims];
    unfold dims; cbn [filter get]; rewrite ?Fs, ?Fp, ?Fd; cbn;
    repeat split; lia.
Qed.

Lemma assign_axes_one (ds : Dims) (ax : Axes) (a : dimId) :
  assign_axes ds = Ok ax -> ax_varDims ax = [a] ->
  ax_xDim ax = Some a /\ ax_yDim ax = None
  /\ ax_numRows ax = 1%Z /\ ax_numCols ax = count (get ds a).
Proof.
  axes_cases ds; try discriminate;
    repeat match goal with
           | |- context [(?a <? ?b)%Z] => destruct (a <? b)%Z
           end;
    cbn [filter dimId_eqb negb first bind];
    intros H; injection H as <-; cbn [ax_varDims]; intros V;
    try discriminate; injection V as <-; cbn; auto.
Qed.

(** X6: when speed, power and distance all vary, the plan is refused with
    "Too many free dimensions, at least one must be fixed", whatever the
    counts. *)
Theorem three_variable_refused (s p d : string) (lh : Q) (a b c : Dimension)
    (Hs : SpeedDim s = Ok a) (Hp : PowerDim p = Ok b)
    (Hd : DistanceDim d = Ok c)
    (Fa : fixed a = false) (Fb : fixed b = false) (Fc : fixed c = false) :
  TestParams_init s p d lh
  = Raise (InputArgumentError
             "Too many free dimensions, at least one must be fixed" []).
Proof.
  unfold TestParams_init, plan_axes. rewrite Hs, Hp, Hd. cbn [bind].
  unfold assign_axes, dims. cbn [get filter]. rewrite Fa, Fb, Fc. reflexivity.
Qed.

(** X7: with exactly one variable dimension the plan is one row along it:
    that dimension is the column axis, there is no row axis, the number of
    columns is its count, and the rows take no room beyond one line
    height. *)
Theorem one_variable_one_row (s p d : string) (lh : Q) (parms : TestParams)
    (a : dimId)
    (Hinit : TestParams_init s p d lh = Ok parms)
    (Hone : varDims parms = [a]) :
  xDim parms = Some a /\ yDim parms = None
  /\ numRows parms = 1%Z /\ numCols parms = count (dim_of parms a)
  /\ yIncr parms = 0 /\ height parms = lh.
Proof.
  destruct (TestParams_init_record _ _ _ _ _ Hinit)
    as (ds & ax & xi & yi & P & X & Y & ->).
  apply plan_axes_Ok in P. cbn [varDims] in Hone.
  destruct (assign_axes_one _ _ _ P Hone) as (Ax & Ay & Ar & Ac).
  unfold y_spacing in Y. rewrite Ar in Y. cbn in Y. injection Y as <-.
  cbn [xDim yDim numRows numCols yIncr height]. rewrite Ar.
  repeat split; auto. rewrite Ac. destruct ds as [[x y] z].
  destruct a; reflexivity.
Qed.

(** X8: every plan that is constructed has at most two variable
    dimensions; [varDims] lists, in the order speed, power, distance,
    exactly the dimensions that are not fixed; the counts of fixed and
    variable dimensions add up to three; an axis is always one of the
    variable dimensions, and a row axis comes with a different column axis
    of at least its count. *)
Theorem plan_invariants (s p d : string) (lh : Q) (parms : TestParams)
    (Hinit : TestParams_init s p d lh = Ok parms) :
  (numFixedDims parms + numVarDims parms = 3)%Z
  /\ numVarDims parms = Z.of_nat (List.length (varDims parms))
  /\ (numVarDims parms <= 2)%Z
  /\ varDims parms = filter (fun i => negb (fixed (dim_of parms i))) dims
  /\ (forall i, xDim parms = Some i -> fixed (dim_of parms i) = false)
  /\ (forall j, yDim parms = Some j ->
        fixed (dim_of parms j) = false
        /\ exists i, xDim parms = Some i /\ i <> j
                     /\ (count (dim_of parms j) <= count (dim_of parms i))%Z).
Proof.
  destruct (TestParams_init_record _ _ _ _ _ Hinit)
    as (ds & ax & xi & yi & P & X & Y & ->).
  apply plan_axes_Ok in P.
  destruct (assign_axes_counts _ _ P) as (V & S3 & L & N2).
  assert (forall i, dim_of (mkTestParams (get ds Speed) (get ds Power)
                              (get ds Distance) lh (ax_varDims ax)
                              (ax_numFixedDims ax) (ax_numVarDims ax)
                              (ax_xDim ax) (ax_yDim ax) (ax_numRows ax)
                              (ax_numCols ax) xi yi
                              (if (1 <? ax_numCols ax)%Z
                               then xi * inject_Z (ax_numCols ax - 1) + KERF
                               else KERF)
                              (if (1 <? ax_numRows ax)%Z
                               then yi * inject_Z (ax_numRows ax - 1) + lh
                               else lh)) i = get ds i) as G
    by (intros i; destruct ds as [[x y] z]; destruct i; reflexivity).
  cbn [numFixedDims numVarDims varDims xDim yDim].
  split; [exact S3|]. split; [exact L|]. split; [exact N2|].
  split; [|split].
  - etransitivity; [exact V|]. apply filter_ext. intros i. rewrite G.
    reflexivity.
  - intros i Xi. rewrite G.
    destruct (assign_axes_shape _ _ P) as [(Xn & _)|(i' & Xi' & F & _)];
      congruence.
  - intros j H. split.
    { rewrite G.
      destruct (assign_axes_shape _ _ P)
        as [(_ & Yn & _)|(i' & _ & _ & _ & [[Yn _]|(j' & Yj & _ & F & _)])];
        congruence. }
    assert (Z.of_nat (List.length (ax_varDims ax)) = 2%Z) as L2.
    { clear - P H. revert P H. axes_cases ds; try discriminate;
        repeat match goal with
               | |- context [(?a <? ?b)%Z] => destruct (a <? b)%Z
               end;
        cbn [filter dimId_eqb negb first bind];
        intros P; injection P as <-; cbn; intros; congruence. }
    destruct (ax_varDims ax) as [|u [|v [|w t]]] eqn:Vs;
      try (cbn [List.length] in L2; lia).
    destruct (assign_axes_two _ _ _ _ P Vs) as (Rk & Ax & Ay & _).
    rewrite Ay in H.
    destruct (count (get ds u) <? count (get ds v))%Z eqn:E;
      injection H as <-.
    + exists v. rewrite !G. apply Z.ltb_lt in E.
      split; [exact Ax|]. split; [intros ->; lia|lia].
    + exists u. rewrite !G. apply Z.ltb_ge in E.
      split; [exact Ax|]. split; [intros ->; lia|lia].
Qed.

Lemma bounded_fresh (s : string) (d : Dimension) :
  SpeedDim s = Ok d \/ PowerDim s = Ok d \/ DistanceDim s = Ok d ->
  indx d = 0%Z /\ val d = minVal d.
Proof.
  destruct (bounded_accepts s d) as (A & B & C).
  intros [H|[H|H]]; [apply A in H|apply B in H|apply C in H];
    destruct H as (mn & mx & cnt & _ & -> & _); split; reflexivity.
Qed.

(** X9: when speed, power and distance are all fixed the plan is always
    accepted, whatever the line height: no axis, one row of one column, a
    pattern as wide as the kerf and as high as one line; the traversal cuts
    exactly one cell, at the three minimum values. *)
Theorem all_fixed_single_cut (s p d : string) (lh : Q) (a b c : Dimension)
    (Hs : SpeedDim s = Ok a) (Hp : PowerDim p = Ok b)
    (Hd : DistanceDim d = Ok c)
    (Fa : fixed a = true) (Fb : fixed b = true) (Fc : fixed c = true) :
  exists parms,
    TestParams_init s p d lh = Ok parms
    /\ xDim parms = None /\ yDim parms = None
    /\ numRows parms = 1%Z /\ numCols parms = 1%Z
    /\ width parms = KERF /\ height parms = lh
    /\ exists st, traverse parms = Ok st
                  /\ cells (snd st) = [mkCell (minVal a) (minVal b) (minVal c)].
Proof.
  destruct (bounded_fresh s a (or_introl Hs)) as [_ Va].
  destruct (bounded_fresh p b (or_intror (or_introl Hp))) as [_ Vb].
  destruct (bounded_fresh d c (or_intror (or_intror Hd))) as [_ Vc].
  unfold TestParams_init, plan_axes. rewrite Hs, Hp, Hd. cbn [bind].
  unfold assign_axes, dims. cbn [get filter]. rewrite Fa, Fb, Fc.
  cbn. eexists. split; [reflexivity|]. cbn.
  repeat (split; [reflexivity|]).
  eexists. split; [reflexivity|]. cbn. rewrite Va, Vb, Vc. reflexivity.
Qed.

Lemma inject_Z_le_const (z k : Z) : inject_Z z <= inject_Z k -> (z <= k)%Z.
Proof. intros H. rewrite Zle_Qle. exact H. Qed.


(** X11: with the default line height (20 mm) a plan has at most 6 rows;
    with two rows or more the spacing in Y is always 30 mm, whatever the
    number of rows, and the pattern is [30 * (numRows - 1) + 20] mm high:
    with 6 rows that is 170 mm, above [MAX_Y_DISTANCE]. *)
Theorem row_bounds (s p d : string) (parms : TestParams)
    (Hinit : TestParams_init s p d DEF_LINE_HEIGHT = Ok parms) :
  (numRows parms <= 6)%Z
  /\ ((2 <= numRows parms)%Z ->
      yIncr parms = DEF_LINE_HEIGHT + MAX_Y_SPACING
      /\ height parms == 30 * inject_Z (numRows parms - 1) + 20)
  /\ (numRows parms = 6%Z -> MAX_Y_DISTANCE < height parms).
Proof.
  destruct (TestParams_init_record _ _ _ _ _ Hinit)
    as (ds & ax & xi & yi & P & X & Y & ->).
  cbn [numRows yIncr height]. unfold y_spacing in Y.
  destruct (ax_numRows ax <? 2)%Z eqn:C.
  - apply Z.ltb_lt in C. repeat split; intros; lia.
  - apply Z.ltb_ge in C.
    assert ((1 <? ax_numRows ax)%Z = true) as -> by (apply Z.ltb_lt; lia).
    pose proof (inject_Z_pred_pos (ax_numRows ax) ltac:(lia)) as M.
    set (m := inject_Z (ax_numRows ax - 1)) in *.
    assert ((MAX_Y_DISTANCE - DEF_LINE_HEIGHT) / m * m
            == MAX_Y_DISTANCE - DEF_LINE_HEIGHT) as D
      by (field; lra).
    set (y0 := (MAX_Y_DISTANCE - DEF_LINE_HEIGHT) / m) in *.
    destruct (Qlt_bool (y0 - DEF_LINE_HEIGHT) MIN_Y_SPACING) eqn:T.
    { destruct (name_of ds (ax_yDim ax)); discriminate. }
    apply Qlt_bool_false in T. unfold Qgt_bool in Y.
    unfold DEF_LINE_HEIGHT, MIN_Y_SPACING, MAX_Y_SPACING, MAX_Y_DISTANCE in *.
    assert (m <= inject_Z 5) as M5.
    { assert (inject_Z 5 * m <= inject_Z 26) as M26
        by (change (inject_Z 5) with 5; change (inject_Z 26) with 26; nra).
      unfold m in *. rewrite <- inject_Z_mult in M26.
      apply inject_Z_le_const in M26. rewrite <- Zle_Qle. lia. }
    pose proof (inject_Z_le_const _ _ M5) as M5z.
    destruct (Qlt_bool 10 y0) eqn:G;
      [apply Qlt_bool_iff in G|apply Qlt_bool_false in G; lra].
    injection Y as <-. split; [lia|]. split.
    + intros _. split; [reflexivity|]. fold m. ring.
    + intros R6. unfold m in *. rewrite R6. reflexivity.
Qed.

(** ** The traversal in closed form *)

Lemma dimId_eqb_refl (i : dimId) : dimId_eqb i i = true.
Proof. destruct i; reflexivity. Qed.

Lemma dimId_eqb_neq (i j : dimId) : i <> j -> dimId_eqb i j = false.
Proof. destruct i, j; intros N; try reflexivity; contradiction. Qed.

Lemma advance_start (d : Dimension) :
  indx d = 0%Z -> val d = minVal d -> advance d 0 = d.
Proof. destruct d. cbn. intros -> ->. reflexivity. Qed.

Lemma dim_of_plan_at (parms : TestParams) (r c : Z) (i : dimId) :
  dim_of (plan_at parms r c) i = dim_at parms r c i.
Proof. destruct i; reflexivity. Qed.

Lemma plan_at_start (parms : TestParams) :
  ready parms -> plan_at parms 0 0 = parms.
Proof.
  intros (Fr & _).
  assert (forall i, dim_at parms 0 0 i = dim_of parms i) as D.
  { intros i. destruct (Fr i) as [I V]. unfold dim_at.
    rewrite (advance_start _ I V).
    destruct (is_axis (xDim parms) i), (is_axis (yDim parms) i); reflexivity. }
  unfold plan_at. rewrite !D. destruct parms. reflexivity.
Qed.

Lemma advance_next (d : Dimension) (k : Z) :
  fixed d = false -> (0 <= k)%Z -> (k + 1 < count d)%Z ->
  next (advance d k)
  = (Ok (axis_value d (k + 1)), advance d (k + 1)).
Proof.
  intros F K C. rewrite next_step; [|exact F|cbn; lia].
  unfold advance, axis_value. cbn [name minVal maxVal count incr fixed indx].
  assert ((k + 1 =? 0)%Z = false) as -> by (apply Z.eqb_neq; lia).
  reflexivity.
Qed.

Lemma nextX_plan_at (parms : TestParams) (r c : Z) :
  ready parms -> (0 <= c < numCols parms - 1)%Z ->
  exists v, nextX (plan_at parms r c) = Ok (v, plan_at parms r (c + 1)).
Proof.
  intros (_ & HX & _) Hc. destruct HX as (i & Xi & Fi & Ci); [lia|].
  unfold nextX, next_of. cbn [xDim plan_at]. rewrite Xi.
  fold (plan_at parms r c). rewrite dim_of_plan_at.
  assert (dim_at parms r c i = advance (dim_of parms i) c) as ->
    by (unfold dim_at; rewrite Xi; cbn [is_axis]; rewrite dimId_eqb_refl;
        reflexivity).
  rewrite advance_next; [|exact Fi|lia|lia]. cbn [bind].
  eexists. f_equal. f_equal.
  unfold set_dim, plan_at, dim_at. rewrite Xi.
  destruct i; cbn; reflexivity.
Qed.

Lemma nextY_plan_at (parms : TestParams) (r c : Z) :
  ready parms -> (0 <= r < numRows parms - 1)%Z ->
  exists v, nextY (plan_at parms r c) = Ok (v, plan_at parms (r + 1) 0).
Proof.
  intros (_ & _ & HY) Hr.
  destruct HY as (i & j & Xi & Yj & N & Fj & Cj); [lia|].
  unfold nextY. cbn [xDim plan_at]. rewrite Xi. fold (plan_at parms r c).
  unfold next_of.
  destruct (set_dim_grid (plan_at parms r c) i
              (reset (dim_of (plan_at parms r c) i))) as (_ & _ & _ & ->).
  cbn [yDim plan_at]. rewrite Yj. fold (plan_at parms r c).
  rewrite dim_of_set_other by exact N. rewrite !dim_of_plan_at.
  assert (dim_at parms r c j = advance (dim_of parms j) r) as ->
    by (unfold dim_at; rewrite Xi, Yj; cbn [is_axis];
        rewrite (dimId_eqb_neq _ _ N), dimId_eqb_refl; reflexivity).
  assert (dim_at parms r c i = advance (dim_of parms i) c) as ->
    by (unfold dim_at; rewrite Xi; cbn [is_axis]; rewrite dimId_eqb_refl;
        reflexivity).
  rewrite advance_next; [|exact Fj|lia|lia]. cbn [bind].
  eexists. f_equal. f_equal.
  unfold set_dim, plan_at, dim_at. rewrite Xi, Yj.
  destruct i, j; try contradiction; cbn; reflexivity.
Qed.

Lemma xrange_succ (k : Z) :
  (0 <= k)%Z -> xrange (k + 1) = (xrange k ++ [k])%list.
Proof.
  intros K. unfold xrange.
  replace (Z.to_nat (k + 1)) with (S (Z.to_nat k)) by lia.
  rewrite seq_S, map_app. cbn [map Nat.add]. f_equal. f_equal. lia.
Qed.

Lemma xrange_max (n : Z) : xrange (Z.max 0 n) = xrange n.
Proof. unfold xrange. f_equal. f_equal. lia. Qed.

Lemma column_loop_grid (parms : TestParams) (r : Z) (g : list gcode) :
  ready parms ->
  for_each (xrange (numCols parms))
    (column_body (inject_Z r * yIncr parms)) (plan_at parms r 0, g)
  = Ok (plan_at parms r (Z.max 0 (numCols parms - 1)),
        (g ++ flat_map (cell_codes parms r) (xrange (numCols parms)))%list).
Proof.
  intros Rd. set (lastc := Z.max 0 (numCols parms - 1)).
  destruct (for_each_xrange
              (fun k st =>
                 st = (plan_at parms r (Z.min k lastc),
                       (g ++ flat_map (cell_codes parms r) (xrange k))%list))
              (column_body (inject_Z r * yIncr parms)) (numCols parms)
              (plan_at parms r 0, g)) as (st' & F & ->).
  - replace (Z.min 0 lastc) with 0%Z by lia. cbn. rewrite app_nil_r.
    reflexivity.
  - intros k st Hk ->. replace (Z.min k lastc) with k by lia.
    unfold column_body. cbn [numCols xIncr lineHeight power speed plan_at].
    rewrite (xrange_succ k) by lia. rewrite flat_map_app. cbn [flat_map].
    rewrite app_nil_r.
    assert (cell_codes parms r k
            = ([M03 (val (dim_at parms r k Power));
                G01 (inject_Z k * xIncr parms)
                    (inject_Z r * yIncr parms + lineHeight parms)
                    (val (dim_at parms r k Speed));
                M05]
               ++ (if (k <? numCols parms - 1)%Z
                   then [G00 (inject_Z k * xIncr parms + xIncr parms)
                             (inject_Z r * yIncr parms)
                             (val (dim_at parms r (k + 1) Distance))]
                   else []))%list) as -> by reflexivity.
    destruct (k <? numCols parms - 1)%Z eqn:E.
    + apply Z.ltb_lt in E.
      destruct (nextX_plan_at parms r k Rd) as (v & ->); [lia|].
      cbn [bind]. eexists. split; [reflexivity|].
      replace (Z.min (k + 1) lastc) with (k + 1)%Z by lia.
      unfold compose. cbn [xIncr distance plan_at].
      rewrite <- !app_assoc. reflexivity.
    + apply Z.ltb_ge in E. eexists. split; [reflexivity|].
      replace (Z.min (k + 1) lastc) with k by lia.
      unfold compose. rewrite app_nil_r. rewrite <- !app_assoc. reflexivity.
  - rewrite xrange_max in F.
    replace (Z.min (Z.max 0 (numCols parms)) lastc) with lastc in F by lia.
    exact F.
Qed.

Lemma row_loop_grid (parms : TestParams) (g : list gcode) :
  ready parms ->
  exists parms',
    for_each (xrange (numRows parms)) row_body (parms, g)
    = Ok (parms',
          (g ++ flat_map (row_codes parms) (xrange (numRows parms)))%list).
Proof.
  intros Rd.
  destruct (for_each_xrange
              (fun k st =>
                 snd st = (g ++ flat_map (row_codes parms) (xrange k))%list
                 /\ ((k < numRows parms)%Z -> fst st = plan_at parms k 0))
              row_body (numRows parms) (parms, g)) as ([p' g'] & F & G & _).
  - cbn. rewrite app_nil_r. split; [reflexivity|].
    intros _. symmetry. apply plan_at_start. exact Rd.
  - intros k [p1 g1] Hk [G S]. cbn [fst snd] in *.
    rewrite S by lia. subst g1. unfold row_body. cbn [fst].
    cbn [yIncr numCols plan_at]. rewrite (column_loop_grid parms k _ Rd).
    cbn [bind numRows yIncr distance plan_at].
    rewrite (xrange_succ k) by lia. rewrite flat_map_app. cbn [flat_map].
    rewrite app_nil_r.
    assert (row_codes parms k
            = (flat_map (cell_codes parms k) (xrange (numCols parms))
               ++ (if (k <? numRows parms - 1)%Z
                   then [G00 0 (inject_Z k * yIncr parms + yIncr parms)
                             (val (dim_at parms (k + 1) 0 Distance))]
                   else []))%list) as -> by reflexivity.
    destruct (k <? numRows parms - 1)%Z eqn:E.
    + apply Z.ltb_lt in E.
      destruct (nextY_plan_at parms k (Z.max 0 (numCols parms - 1)) Rd)
        as (v & ->); [lia|].
      cbn [bind]. eexists. split; [reflexivity|]. cbn [fst snd].
      split; [|reflexivity].
      unfold compose. cbn [yIncr distance plan_at].
      rewrite <- !app_assoc. reflexivity.
    + apply Z.ltb_ge in E. eexists. split; [reflexivity|]. cbn [fst snd].
      split; [|intros; lia].
      rewrite app_nil_r. rewrite <- !app_assoc. reflexivity.
  - exists p'. cbn [snd] in G. rewrite G, xrange_max in F. exact F.
Qed.

Lemma init_ready (s p d : string) (lh : Q) (parms : TestParams) :
  TestParams_init s p d lh = Ok parms -> ready parms.
Proof.
  intros H.
  destruct (TestParams_init_Ok _ _ _ _ _ H)
    as (ds & ax & xi & yi & P & _ & _ & G & _).
  destruct (init_cursor _ _ _ _ _ H) as (_ & _ & HX & HY).
  split; [|split].
  - intros i. rewrite G. apply plan_axes_iff in P.
    destruct P as (A & B & C & _).
    destruct i;
      [apply (bounded_fresh s); auto
      |apply (bounded_fresh p); auto
      |apply (bounded_fresh d); auto].
  - intros Hc. destruct (HX Hc) as (i & Xi & Fi & Ci & _). eauto.
  - intros Hr. destruct (HY Hr) as (i & j & Xi & Yj & N & Fj & Cj & _).
    exists i, j. auto.
Qed.

(** X12: the traversal of a constructed plan writes the G-codes of the
    grid in closed form: the preamble, then row after row and, in a row,
    column after column, the cut of cell [(r, c)] made with the column axis
    at its step [c], the row axis at its step [r] and the fixed dimensions
    at their values, each followed by the move to the next cell or the next
    row, and at the end the return to the origin. *)
Theorem traverse_is_grid (s p d : string) (lh : Q) (parms : TestParams)
    (Hinit : TestParams_init s p d lh = Ok parms) :
  exists parms', traverse parms = Ok (parms', grid_codes parms).
Proof.
  pose proof (init_ready _ _ _ _ _ Hinit) as Rd.
  unfold traverse.
  destruct (row_loop_grid parms [G21; G90; G00 0 0 (val (distance parms))] Rd)
    as (parms' & ->).
  cbn [bind]. exists parms'. unfold compose, grid_codes.
  rewrite <- app_assoc. reflexivity.
Qed.

(** ** The cells of the grid *)

Lemma dim_at_start (parms : TestParams) (i : dimId) :
  ready parms -> dim_at parms 0 0 i = dim_of parms i.
Proof.
  intros (Fr & _). destruct (Fr i) as [I V]. unfold dim_at.
  rewrite (advance_start _ I V).
  destruct (is_axis (xDim parms) i), (is_axis (yDim parms) i); reflexivity.
Qed.

Lemma columns_cells (parms : TestParams) (r : Z) (m : nat) :
  forall (a : nat) (z pw : Q) (rest : list gcode),
  z = val (dim_at parms r (Z.of_nat a) Distance) ->
  Z.of_nat (a + m) = Z.max 0 (numCols parms) ->
  exists z' pw',
    cells_from z pw
      (flat_map (cell_codes parms r) (map Z.of_nat (seq a m)) ++ rest)%list
    = (map (grid_cell parms r) (map Z.of_nat (seq a m))
       ++ cells_from z' pw' rest)%list.
Proof.
  induction m as [|m IH]; intros a z pw rest Hz Hn.
  - exists z, pw. reflexivity.
  - cbn [seq map flat_map]. unfold cell_codes at 1.
    destruct (Z.of_nat a <? numCols parms - 1)%Z eqn:E.
    + apply Z.ltb_lt in E.
      destruct (IH (S a) (val (dim_at parms r (Z.of_nat a + 1) Distance))
                  (val (dim_at parms r (Z.of_nat a) Power)) rest)
        as (z' & pw' & C).
      * f_equal. f_equal. lia.
      * lia.
      * exists z', pw'. cbn [app cells_from]. rewrite C. subst z.
        reflexivity.
    + apply Z.ltb_ge in E. assert (m = O) as -> by lia.
      exists z, (val (dim_at parms r (Z.of_nat a) Power)).
      cbn [app cells_from seq map flat_map]. subst z. reflexivity.
Qed.

Lemma rows_cells (parms : TestParams) (zz : Q) (m : nat) :
  forall (a : nat) (z pw : Q),
  z = val (dim_at parms (Z.of_nat a) 0 Distance) ->
  Z.of_nat (a + m) = Z.max 0 (numRows parms) ->
  cells_from z pw
    (flat_map (row_codes parms) (map Z.of_nat (seq a m)) ++ [G00 0 0 zz])%list
  = flat_map (fun r => map (grid_cell parms r) (xrange (numCols parms)))
      (map Z.of_nat (seq a m)).
Proof.
  induction m as [|m IH]; intros a z pw Hz Hn.
  - reflexivity.
  - cbn [seq map flat_map]. unfold row_codes at 1. rewrite <- !app_assoc.
    destruct (columns_cells parms (Z.of_nat a) (Z.to_nat (numCols parms)) 0
                z pw
                ((if (Z.of_nat a <? numRows parms - 1)%Z
                  then [G00 0 (inject_Z (Z.of_nat a) * yIncr parms + yIncr parms)
                            (val (dim_at parms (Z.of_nat a + 1) 0 Distance))]
                  else [])
                 ++ flat_map (row_codes parms) (map Z.of_nat (seq (S a) m))
                 ++ [G00 0 0 zz])%list)
      as (z' & pw' & C); [exact Hz|lia|].
    unfold xrange at 1 2. rewrite C. f_equal.
    destruct (Z.of_nat a <? numRows parms - 1)%Z eqn:E.
    + apply Z.ltb_lt in E. cbn [app cells_from].
      apply IH; [f_equal; f_equal; lia|lia].
    + apply Z.ltb_ge in E. assert (m = O) as -> by lia. reflexivity.
Qed.

Lemma grid_codes_cells (parms : TestParams) :
  ready parms -> cells (grid_codes parms) = grid_cells parms.
Proof.
  intros Rd. unfold cells, grid_codes, grid_cells. cbn [app cells_from].
  unfold xrange at 1 3. apply rows_cells; [|lia].
  cbn [Z.of_nat]. rewrite (dim_at_start parms Distance Rd). reflexivity.
Qed.

Lemma xrange_length (n : Z) : List.length (xrange n) = Z.to_nat n.
Proof. unfold xrange. rewrite length_map, length_seq. reflexivity. Qed.


Lemma grid_cells_length (parms : TestParams) :
  List.length (grid_cells parms)
  = (Z.to_nat (numRows parms) * Z.to_nat (numCols parms))%nat.
Proof.
  unfold grid_cells. rewrite <- (xrange_length (numRows parms)).
  induction (xrange (numRows parms)) as [|r rs IH]; [reflexivity|].
  cbn [flat_map List.length]. rewrite length_app, IH, length_map, xrange_length.
  reflexivity.
Qed.

(** X13: the cells cut by the traversal of a constructed plan are the
    cells of the grid in row-major order, [numRows * numCols] of them (none
    when a count is 0 or below); cell [(r, c)] is cut with every dimension
    at its value for row [r] and column [c]. *)
Theorem cells_are_grid (s p d : string) (lh : Q) (parms : TestParams)
    (Hinit : TestParams_init s p d lh = Ok parms) :
  exists st,
    traverse parms = Ok st
    /\ cells (snd st) = grid_cells parms
    /\ List.length (cells (snd st))
       = (Z.to_nat (numRows parms) * Z.to_nat (numCols parms))%nat.
Proof.
  destruct (traverse_is_grid _ _ _ _ _ Hinit) as (parms' & T).
  exists (parms', grid_codes parms). split; [exact T|]. cbn [snd].
  rewrite (grid_codes_cells parms (init_ready _ _ _ _ _ Hinit)).
  split; [reflexivity|apply grid_cells_length].
Qed.





End Planner.

(** * The output object *)

Lemma append_assoc (a b c : string) : ((a ++ b) ++ c = a ++ (b ++ c))%string.
Proof. induction a as [|x a IH]; cbn; [reflexivity|]. rewrite IH. reflexivity. Qed.

Lemma append_nil_r (a : string) : (a ++ "" = a)%string.
Proof. induction a as [|x a IH]; cbn; [reflexivity|]. rewrite IH. reflexivity. Qed.

Lemma append_length (a b : string) :
  String.length (a ++ b) = (String.length a + String.length b)%nat.
Proof. induction a as [|x a IH]; cbn; [reflexivity|]. rewrite IH. reflexivity. Qed.

Lemma written_app (t1 t2 : list GcodeOutput.event) :
  GcodeOutput.written (t1 ++ t2)
  = (GcodeOutput.written t1 ++ GcodeOutput.written t2)%string.
Proof.
  induction t1 as [|e t1 IH]; [reflexivity|].
  destruct e; cbn; rewrite IH; [apply eq_sym, append_assoc|reflexivity..].
Qed.

Lemma init_FILE (opens : string -> bool) (prog now mode file_ : string)
    (o : GcodeOutput.t) :
  GcodeOutput.init opens prog now mode file_ = inr o ->
  GcodeOutput.upper mode = "FILE" ->
  o = GcodeOutput.mk [] "FILE"
        (Some ("( Generated by: " ++ prog ++ " @ " ++ now ++ " )"
               ++ GcodeOutput.newline)%string) [].
Proof.
  unfold GcodeOutput.init. intros H U. rewrite U in H. cbn in H.
  destruct (negb (file_ =? "-")%string && negb (opens file_));
    [discriminate|]. injection H as <-. reflexivity.
Qed.

Lemma emit_batch_closed (v : Z) (o : GcodeOutput.t) (b : list string) :
  GcodeOutput.mode o = "FILE" -> GcodeOutput.header o = None ->
  GcodeOutput.gcodes o = [] ->
  let o' := GcodeOutput.emit_batch v o b in
  GcodeOutput.mode o' = "FILE" /\ GcodeOutput.header o' = None
  /\ GcodeOutput.gcodes o' = []
  /\ GcodeOutput.written (GcodeOutput.trace o')
     = (GcodeOutput.written (GcodeOutput.trace o)
        ++ GcodeOutput.join GcodeOutput.newline b)%string.
Proof.
  intros M H G. unfold GcodeOutput.emit_batch, GcodeOutput.emit,
    GcodeOutput.compose, GcodeOutput.log.
  destruct (1 <? v)%Z; cbn [GcodeOutput.gcodes GcodeOutput.mode
                             GcodeOutput.header GcodeOutput.trace];
    rewrite M, H, G; cbn [String.eqb Ascii.eqb Bool.eqb GcodeOutput.truthy
                           GcodeOutput.gcodes GcodeOutput.mode app
                           GcodeOutput.header GcodeOutput.trace];
    repeat split; rewrite !written_app; cbn [GcodeOutput.written];
    rewrite ?append_nil_r; reflexivity.
Qed.

Lemma emit_batches_closed (v : Z) (bs : list (list string)) :
  forall o : GcodeOutput.t,
  GcodeOutput.mode o = "FILE" -> GcodeOutput.header o = None ->
  GcodeOutput.gcodes o = [] ->
  let o' := fold_left (GcodeOutput.emit_batch v) bs o in
  GcodeOutput.gcodes o' = [] /\ GcodeOutput.header o' = None
  /\ GcodeOutput.written (GcodeOutput.trace o')
     = (GcodeOutput.written (GcodeOutput.trace o)
        ++ GcodeOutput.glue (map (GcodeOutput.join GcodeOutput.newline) bs))%string.
Proof.
  induction bs as [|b bs IH]; intros o M H G.
  - cbn. rewrite append_nil_r. auto.
  - cbn [fold_left map GcodeOutput.glue fold_right].
    destruct (emit_batch_closed v o b M H G) as (M' & H' & G' & W).
    destruct (IH _ M' H' G') as (G2 & H2 & W2).
    repeat split; [exact G2|exact H2|].
    rewrite W2, W. apply append_assoc.
Qed.

(** X15: an object made in FILE mode writes its header exactly once, at
    the first [emit], and after it the lines of each batch joined by line
    breaks; nothing separates one batch from the next, nor ends the last;
    the buffer is empty afterwards. *)
Theorem header_once_batches_glued (opens : string -> bool)
    (prog now mode file_ : string) (o : GcodeOutput.t) (v : Z)
    (b : list string) (bs : list (list string))
    (Hinit : GcodeOutput.init opens prog now mode file_ = inr o)
    (Hmode : GcodeOutput.upper mode = "FILE") :
  let o' := fold_left (GcodeOutput.emit_batch v) (b :: bs) o in
  GcodeOutput.written (GcodeOutput.trace o')
  = (("( Generated by: " ++ prog ++ " @ " ++ now ++ " )" ++ GcodeOutput.newline)
     ++ GcodeOutput.glue (map (GcodeOutput.join GcodeOutput.newline) (b :: bs)))%string
  /\ GcodeOutput.getLen o' = O
  /\ GcodeOutput.header o' = None.
Proof.
  rewrite (init_FILE _ _ _ _ _ _ Hinit Hmode). cbn [fold_left].
  set (h := ("( Generated by: " ++ prog ++ " @ " ++ now ++ " )"
             ++ GcodeOutput.newline)%string).
  assert (GcodeOutput.truthy (Some h) = true) as Th by reflexivity.
  set (o1 := GcodeOutput.emit_batch v (GcodeOutput.mk [] "FILE" (Some h) []) b).
  assert (GcodeOutput.mode o1 = "FILE" /\ GcodeOutput.header o1 = None
          /\ GcodeOutput.gcodes o1 = []
          /\ GcodeOutput.written (GcodeOutput.trace o1)
             = (h ++ GcodeOutput.join GcodeOutput.newline b)%string)
    as (M & H & G & W).
  { unfold o1, GcodeOutput.emit_batch, GcodeOutput.emit, GcodeOutput.compose,
      GcodeOutput.log.
    destruct (1 <? v)%Z; cbn [GcodeOutput.gcodes GcodeOutput.mode
                               GcodeOutput.header GcodeOutput.trace
                               String.eqb Ascii.eqb Bool.eqb app];
      rewrite Th; cbn [GcodeOutput.gcodes GcodeOutput.mode app
                       GcodeOutput.header GcodeOutput.trace
                       GcodeOutput.written];
      rewrite ?append_nil_r; auto. }
  destruct (emit_batches_closed v bs o1 M H G) as (G2 & H2 & W2).
  cbn zeta. split; [|split; [unfold GcodeOutput.getLen; rewrite G2; reflexivity
                            |exact H2]].
  rewrite W2, W. cbn [map GcodeOutput.glue fold_right]. apply append_assoc.
Qed.

Lemma join_app (sep : string) (a b : list string) :
  a <> [] -> b <> [] ->
  GcodeOutput.join sep (a ++ b)
  = (GcodeOutput.join sep a ++ sep ++ GcodeOutput.join sep b)%string.
Proof.
  intros Ha Hb. induction a as [|x a IH]; [contradiction|].
  destruct a as [|y a].
  - destruct b as [|z b]; [contradiction|]. reflexivity.
  - change (GcodeOutput.join sep ((x :: y :: a) ++ b))
      with (x ++ sep ++ GcodeOutput.join sep ((y :: a) ++ b))%string.
    rewrite IH by discriminate.
    change (GcodeOutput.join sep (x :: y :: a))
      with (x ++ sep ++ GcodeOutput.join sep (y :: a))%string.
    rewrite !append_assoc. reflexivity.
Qed.

Lemma append_inj_l (a b c : string) : (a ++ b = a ++ c)%string -> b = c.
Proof.
  induction a as [|x a IH]; cbn; intros H; [exact H|].
  injection H as H. apply IH. exact H.
Qed.

(** X16: emitting the lines in two batches does not write what one batch
    writes: when both parts hold a line, the single batch has a line break
    between them, and the two batches have none, so the last line of the
    first and the first line of the second come out as one line. *)
Theorem two_batches_lose_a_break (opens : string -> bool)
    (prog now mode file_ : string) (o : GcodeOutput.t) (v : Z)
    (a b : list string)
    (Hinit : GcodeOutput.init opens prog now mode file_ = inr o)
    (Hmode : GcodeOutput.upper mode = "FILE")
    (Ha : a <> []) (Hb : b <> []) :
  GcodeOutput.written
    (GcodeOutput.trace (fold_left (GcodeOutput.emit_batch v) [(a ++ b)%list] o))
  = (("( Generated by: " ++ prog ++ " @ " ++ now ++ " )" ++ GcodeOutput.newline)
     ++ GcodeOutput.join GcodeOutput.newline a ++ GcodeOutput.newline
     ++ GcodeOutput.join GcodeOutput.newline b)%string
  /\ GcodeOutput.written
       (GcodeOutput.trace (fold_left (GcodeOutput.emit_batch v) [a; b] o))
     = (("( Generated by: " ++ prog ++ " @ " ++ now ++ " )" ++ GcodeOutput.newline)
        ++ GcodeOutput.join GcodeOutput.newline a
        ++ GcodeOutput.join GcodeOutput.newline b)%string
  /\ GcodeOutput.written
       (GcodeOutput.trace (fold_left (GcodeOutput.emit_batch v) [a; b] o))
     <> GcodeOutput.written
          (GcodeOutput.trace
             (fold_left (GcodeOutput.emit_batch v) [(a ++ b)%list] o)).
Proof.
  destruct (header_once_batches_glued opens prog now mode file_ o v
              (a ++ b)%list [] Hinit Hmode) as (W1 & _).
  destruct (header_once_batches_glued opens prog now mode file_ o v
              a [b] Hinit Hmode) as (W2 & _).
  cbn zeta in W1, W2. cbn [map GcodeOutput.glue fold_right] in W1, W2.
  rewrite append_nil_r in W1, W2. rewrite (join_app _ a b Ha Hb) in W1.
  split; [exact W1|]. split; [exact W2|].
  rewrite W1, W2. intros E. apply append_inj_l in E. apply append_inj_l in E.
  apply (f_equal String.length) in E. rewrite append_length in E.
  cbn in E. lia.
Qed.


Lemma append_not_empty (a b : string) : a <> ""%string -> (a ++ b)%string <> ""%string.
Proof. destruct a; [contradiction|discriminate]. Qed.

Lemma truthy_Some (h : string) :
  h <> ""%string -> GcodeOutput.truthy (Some h) = true.
Proof. destruct h; [contradiction|reflexivity]. Qed.

Lemma hdrs_open (v : Z) (strs : list string) : forall (o : GcodeOutput.t) (h : string),
  GcodeOutput.mode o = "FILE" -> GcodeOutput.header o = Some h ->
  h <> ""%string ->
  exists o',
    GcodeOutput.hdrs v true strs o = (o', None)
    /\ GcodeOutput.mode o' = "FILE"
    /\ GcodeOutput.gcodes o' = GcodeOutput.gcodes o
    /\ GcodeOutput.header o'
       = Some (h ++ GcodeOutput.glue (map GcodeOutput.header_line strs))%string
    /\ GcodeOutput.written (GcodeOutput.trace o')
       = GcodeOutput.written (GcodeOutput.trace o).
Proof.
  induction strs as [|s strs IH]; intros o h M H N.
  - exists o. cbn. rewrite append_nil_r. auto.
  - cbn [GcodeOutput.hdrs map GcodeOutput.glue fold_right].
    unfold GcodeOutput.hdr, GcodeOutput.log.
    destruct (0 <? v)%Z;
      cbn [GcodeOutput.gcodes GcodeOutput.mode GcodeOutput.header
           GcodeOutput.trace andb];
      rewrite M, H, (truthy_Some h N);
      cbn [String.eqb Ascii.eqb Bool.eqb negb option_map];
      match goal with
      | |- context [GcodeOutput.hdrs v true strs ?o1] =>
          destruct (IH o1 (h ++ GcodeOutput.header_line s)%string)
            as (o' & R & M' & G' & H' & W');
          [reflexivity|reflexivity|apply append_not_empty; exact N|]
      end;
      exists o'; rewrite R;
      cbn [GcodeOutput.gcodes GcodeOutput.trace] in G', W';
      repeat split; auto;
      try (rewrite H'; rewrite append_assoc; reflexivity).
    rewrite W', written_app. cbn. apply append_nil_r.
Qed.

(** X17: on an object made in FILE mode, with comments asked for, the
    strings given to [hdr] before the first [emit] are all accepted and
    come out, each on its line between "( " and " )", right after the
    generated-by line and before the G-codes; once [emit] has run, on any
    object in FILE mode, a further [hdr] raises RuntimeError.  Without
    comments [hdr] never raises and never touches the header. *)
Theorem hdr_before_and_after_emit (opens : string -> bool)
    (prog now mode file_ : string) (o : GcodeOutput.t) (v : Z)
    (strs : list string) (b : list string)
    (Hinit : GcodeOutput.init opens prog now mode file_ = inr o)
    (Hmode : GcodeOutput.upper mode = "FILE") :
  (exists o1,
     GcodeOutput.hdrs v true strs o = (o1, None)
     /\ GcodeOutput.written
          (GcodeOutput.trace (GcodeOutput.emit_batch v o1 b))
        = (("( Generated by: " ++ prog ++ " @ " ++ now ++ " )"
            ++ GcodeOutput.newline)
           ++ GcodeOutput.glue (map GcodeOutput.header_line strs)
           ++ GcodeOutput.join GcodeOutput.newline b)%string)
  /\ (forall (q : GcodeOutput.t) (s : string),
        GcodeOutput.mode q = "FILE" ->
        snd (GcodeOutput.hdr v true s (GcodeOutput.emit q))
        = Some GcodeOutput.HeaderClosed)
  /\ (forall (q : GcodeOutput.t) (s : string),
        snd (GcodeOutput.hdr v false s q) = None
        /\ GcodeOutput.header (fst (GcodeOutput.hdr v false s q))
           = GcodeOutput.header q).
Proof.
  rewrite (init_FILE _ _ _ _ _ _ Hinit Hmode).
  set (h := ("( Generated by: " ++ prog ++ " @ " ++ now ++ " )"
             ++ GcodeOutput.newline)%string).
  split; [|split].
  - destruct (hdrs_open v strs (GcodeOutput.mk [] "FILE" (Some h) []) h)
      as (o1 & R & M & G & H & W); try reflexivity; [discriminate|].
    exists o1. split; [exact R|].
    cbn [GcodeOutput.gcodes GcodeOutput.trace GcodeOutput.written] in G, W.
    unfold GcodeOutput.emit_batch, GcodeOutput.emit, GcodeOutput.compose,
      GcodeOutput.log.
    assert (GcodeOutput.truthy
              (Some (h ++ GcodeOutput.glue (map GcodeOutput.header_line strs))%string)
            = true) as Th by reflexivity.
    destruct (1 <? v)%Z;
      cbn [GcodeOutput.gcodes GcodeOutput.mode GcodeOutput.header
           GcodeOutput.trace];
      rewrite M, H, G, Th;
      cbn [String.eqb Ascii.eqb Bool.eqb app GcodeOutput.gcodes
           GcodeOutput.mode GcodeOutput.header GcodeOutput.trace];
      rewrite !written_app, ?W; cbn [GcodeOutput.written];
      rewrite ?append_nil_r; cbn [append]; rewrite ?append_assoc; reflexivity.
  - intros q s M. unfold GcodeOutput.emit, GcodeOutput.hdr, GcodeOutput.log.
    rewrite M. cbn [String.eqb Ascii.eqb Bool.eqb].
    destruct (GcodeOutput.truthy (GcodeOutput.header q)) eqn:T;
      [destruct (GcodeOutput.header q) eqn:Hq; [|discriminate T]|];
      destruct (0 <? v)%Z;
      cbn [GcodeOutput.gcodes GcodeOutput.mode GcodeOutput.header
           GcodeOutput.trace andb String.eqb Ascii.eqb Bool.eqb
           GcodeOutput.truthy negb snd];
      rewrite ?M, ?T; reflexivity.
  - intros q s. unfold GcodeOutput.hdr, GcodeOutput.log.
    destruct (0 <? v)%Z; cbn; auto.
Qed.

Lemma hdr_GRBL (v : Z) (c : bool) (s : string) (o : GcodeOutput.t) :
  GcodeOutput.mode o = "GRBL" ->
  GcodeOutput.hdr v c s o
  = ((if (0 <? v)%Z
      then GcodeOutput.log (GcodeOutput.ToStderr (s ++ GcodeOutput.newline)) o
      else o), None).
Proof.
  intros M. unfold GcodeOutput.hdr.
  assert (GcodeOutput.mode
            (if (0 <? v)%Z
             then GcodeOutput.log
                    (GcodeOutput.ToStderr (s ++ GcodeOutput.newline)) o
             else o) = "GRBL") as ->
    by (destruct (0 <? v)%Z; exact M).
  cbn [String.eqb Ascii.eqb Bool.eqb]. rewrite andb_false_r. reflexivity.
Qed.

Lemma step_GRBL (o : GcodeOutput.t) (x : GcodeOutput.op) :
  GcodeOutput.mode o = "GRBL" ->
  GcodeOutput.mode (GcodeOutput.step o x) = "GRBL"
  /\ GcodeOutput.written (GcodeOutput.trace (GcodeOutput.step o x))
     = GcodeOutput.written (GcodeOutput.trace o)
  /\ (x = GcodeOutput.Emit -> GcodeOutput.gcodes (GcodeOutput.step o x) = []).
Proof.
  intros M. destruct x as [v c s|v l| |]; cbn [GcodeOutput.step].
  - rewrite (hdr_GRBL v c s o M). cbn [fst]. unfold GcodeOutput.log.
    destruct (0 <? v)%Z; cbn [GcodeOutput.mode GcodeOutput.trace];
      repeat split; auto; try discriminate.
    rewrite written_app. cbn. apply append_nil_r.
  - unfold GcodeOutput.compose, GcodeOutput.log.
    destruct (1 <? v)%Z; cbn [GcodeOutput.gcodes GcodeOutput.mode
                               GcodeOutput.header GcodeOutput.trace];
      repeat split; auto; try discriminate.
    rewrite written_app. cbn. apply append_nil_r.
  - unfold GcodeOutput.postProcess. repeat split; auto; discriminate.
  - unfold GcodeOutput.emit. rewrite M. cbn [String.eqb Ascii.eqb Bool.eqb].
    cbn. repeat split; auto; discriminate.
Qed.

(** X18: an object made in GRBL mode never writes anything to its output,
    whatever is composed and however often [emit] is called: [emit] only
    throws the buffer away.  In that mode [hdr] never raises. *)
Theorem GRBL_writes_nothing (opens : string -> bool)
    (prog now mode file_ : string) (o : GcodeOutput.t)
    (ops : list GcodeOutput.op)
    (Hinit : GcodeOutput.init opens prog now mode file_ = inr o)
    (Hmode : GcodeOutput.upper mode = "GRBL") :
  GcodeOutput.written (GcodeOutput.trace (GcodeOutput.run ops o)) = ""%string
  /\ GcodeOutput.gcodes (GcodeOutput.run (ops ++ [GcodeOutput.Emit]) o) = []
  /\ (forall v c s,
        snd (GcodeOutput.hdr v c s (GcodeOutput.run ops o)) = None).
Proof.
  assert (GcodeOutput.mode o = "GRBL"
          /\ GcodeOutput.written (GcodeOutput.trace o) = ""%string) as [M W].
  { unfold GcodeOutput.init in Hinit. rewrite Hmode in Hinit. cbn in Hinit.
    injection Hinit as <-. split; reflexivity. }
  clear Hinit Hmode.
  assert (forall ops o, GcodeOutput.mode o = "GRBL" ->
            GcodeOutput.mode (GcodeOutput.run ops o) = "GRBL"
            /\ GcodeOutput.written (GcodeOutput.trace (GcodeOutput.run ops o))
               = GcodeOutput.written (GcodeOutput.trace o)) as R.
  { clear. induction ops as [|x ops IH]; intros o M; [auto|].
    cbn [GcodeOutput.run fold_left].
    destruct (step_GRBL o x M) as (M1 & W1 & _).
    destruct (IH _ M1) as [M2 W2]. split; [exact M2|].
    unfold GcodeOutput.run in W2. rewrite W2. exact W1. }
  destruct (R ops o M) as [M' W']. split; [rewrite W'; exact W|]. split.
  - unfold GcodeOutput.run. rewrite fold_left_app. cbn [fold_left].
    apply (step_GRBL _ GcodeOutput.Emit M'). reflexivity.
  - intros v c s. rewrite (hdr_GRBL v c s _ M'). reflexivity.
Qed.


(** * Concrete runs, with decimal literals read by [dec_float] and [dec_int] *)

(** C8: speed "750:750,1", power "500:1500,3", distance "10:10,1": power is
    the column axis, three columns on one row, and the traversal cuts three
    cells at powers 500, 1000, 1500 in that order, each at speed 750 and
    distance 10 (values compared as reduced fractions). *)
Theorem end_to_end_example :
  exists parms st,
    TestParams_init dec_float dec_int "750:750,1" "500:1500,3" "10:10,1" DEF_LINE_HEIGHT = Ok parms
    /\ xDim parms = Some Power /\ yDim parms = None
    /\ numCols parms = 3%Z /\ numRows parms = 1%Z
    /\ traverse parms = Ok st
    /\ map Cell_red (cells (snd st))
       = [mkCell 750 500 10; mkCell 750 1000 10; mkCell 750 1500 10].
Proof.
  eexists. eexists. split; [cbv; reflexivity|].
  split; [reflexivity|]. split; [reflexivity|].
  split; [reflexivity|]. split; [reflexivity|].
  split; [cbv; reflexivity|]. vm_compute. reflexivity.
Qed.









Lemma larger_count_is_column_witness :
  exists parms,
    TestParams_init dec_float dec_int "100:400,4" "100:900,9" "10:10,1" DEF_LINE_HEIGHT = Ok parms
    /\ varDims parms = [Speed; Power]
    /\ xDim parms = Some Power /\ yDim parms = Some Speed
    /\ numCols parms = 9%Z /\ numRows parms = 4%Z
    /\ exists hi lo,
         ((hi = Speed /\ lo = Power) \/ (hi = Power /\ lo = Speed))
         /\ (count (dim_of parms lo) < count (dim_of parms hi))%Z
         /\ xDim parms = Some hi /\ yDim parms = Some lo
         /\ numCols parms = count (dim_of parms hi)
         /\ numRows parms = count (dim_of parms lo).
Proof.
  eexists. split; [cbv; reflexivity|]. repeat (split; [reflexivity|]).
  eapply (larger_count_is_column dec_float dec_int
            "100:400,4" "100:900,9" "10:10,1" DEF_LINE_HEIGHT).
  - reflexivity.
  - reflexivity.
  - intros E. discriminate E.
Defined.

Lemma equal_counts_first_is_column_witness :
  exists parms,
    TestParams_init dec_float dec_int "100:400,4" "100:900,4" "10:10,1" DEF_LINE_HEIGHT = Ok parms
    /\ varDims parms = [Speed; Power]
    /\ (dim_rank Speed < dim_rank Power)%nat
    /\ xDim parms = Some Speed /\ yDim parms = Some Power
    /\ numCols parms = count (dim_of parms Speed)
    /\ numRows parms = count (dim_of parms Power).
Proof.
  eexists. split; [cbv; reflexivity|]. split; [reflexivity|].
  eapply (equal_counts_first_is_column dec_float dec_int
            "100:400,4" "100:900,4" "10:10,1" DEF_LINE_HEIGHT).
  - reflexivity.
  - reflexivity.
  - reflexivity.
Defined.

Lemma column_spacing_witness :
  (exists parms,
     TestParams_init dec_float dec_int "100:400,4" "100:900,9" "10:10,1"
       DEF_LINE_HEIGHT = Ok parms
     /\ numCols parms = 9%Z /\ xIncr parms = MAX_X_SPACING)
  /\ (exists nm,
        TestParams_init dec_float dec_int "100:400,4" "100:900,127" "10:10,1"
          DEF_LINE_HEIGHT
        = Raise (InputArgumentError "Too many columns; reduce {0} count"
                   [StrArg nm])).
Proof.
  split.
  - eexists. split; [cbv; reflexivity|].
    edestruct (column_spacing dec_float dec_int
                 "100:400,4" "100:900,9" "10:10,1" DEF_LINE_HEIGHT)
      as [_ H]; [cbv; reflexivity|reflexivity|].
    destruct (H _ eq_refl) as (C & _ & X).
    split; [exact C|]. apply X. reflexivity.
  - edestruct (column_spacing dec_float dec_int
                 "100:400,4" "100:900,127" "10:10,1" DEF_LINE_HEIGHT)
      as [[_ H] _]; [cbv; reflexivity|reflexivity|].
    apply H. reflexivity.
Defined.


Lemma traversal_never_exhausts_witness :
  exists parms,
    TestParams_init dec_float dec_int "100:400,4" "100:900,9" "10:10,1"
      DEF_LINE_HEIGHT = Ok parms
    /\ (exists st, traverse parms = Ok st)
    /\ traverse parms <> Raise (ValueError TooManyNext).
Proof.
  eexists. split; [cbv; reflexivity|].
  apply (traversal_never_exhausts dec_float dec_int
           "100:400,4" "100:900,9" "10:10,1" DEF_LINE_HEIGHT).
  reflexivity.
Defined.

(** ** Runs of the further properties *)

Lemma next_exhausts_witness :
  fst (nexts 4 (new_Dimension 500 1500 3))
  = map (fun k => if (k <? 3)%Z then Ok (value_at 500 1500 3 k)
                  else Raise (ValueError TooManyNext))
        (indices 0 4)
  /\ indx (snd (nexts 4 (new_Dimension 500 1500 3))) = 4%Z.
Proof.
  apply (next_exhausts 500 1500 3 4).
  - discriminate.
  - intros E. discriminate E.
Defined.

Lemma next_on_fixed_witness :
  nexts 3 (new_Dimension 750 750 1)
  = (repeat (Ok 750) 3, new_Dimension 750 750 1).
Proof.
  apply (next_on_fixed 750 750 1 3). left. reflexivity.
Defined.

Lemma spec_of_6000_200_2 : spec_of dec_float dec_int "6000:200,2" 6000 200 2.
Proof. exists "6000:200", "2", "6000", "200". repeat split. Defined.

Lemma bounded_accepts_witness :
  SpeedDim dec_float dec_int "6000:200,2" = Ok (new_Dimension 6000 200 2).
Proof.
  apply (proj1 (bounded_accepts dec_float dec_int "6000:200,2"
                  (new_Dimension 6000 200 2))).
  exists 6000, 200, 2%Z. split; [exact spec_of_6000_200_2|].
  split; [reflexivity|]. split; discriminate.
Defined.


Lemma separators_required_witness :
  Dimension_init dec_float dec_int "1:2,3,4" = Raise (ValueError Unpack)
  /\ Dimension_init dec_float dec_int "1:2:3,4" = Raise (ValueError Unpack).
Proof.
  split.
  - apply (proj1 (separators_required dec_float dec_int "1:2,3,4")).
    discriminate.
  - apply (proj2 (separators_required dec_float dec_int "1:2:3,4")).
    + reflexivity.
    + discriminate.
Defined.

Lemma three_variable_refused_witness :
  TestParams_init dec_float dec_int "100:400,4" "100:900,9" "10:20,2"
    DEF_LINE_HEIGHT
  = Raise (InputArgumentError
             "Too many free dimensions, at least one must be fixed" []).
Proof.
  eapply (three_variable_refused dec_float dec_int
            "100:400,4" "100:900,9" "10:20,2" DEF_LINE_HEIGHT);
    try (cbv; reflexivity); reflexivity.
Defined.

Lemma one_variable_one_row_witness :
  exists parms,
    TestParams_init dec_float dec_int "750:750,1" "500:1500,3" "10:10,1"
      DEF_LINE_HEIGHT = Ok parms
    /\ xDim parms = Some Power /\ yDim parms = None
    /\ numRows parms = 1%Z /\ numCols parms = count (dim_of parms Power)
    /\ yIncr parms = 0 /\ height parms = DEF_LINE_HEIGHT.
Proof.
  eexists. split; [cbv; reflexivity|].
  eapply (one_variable_one_row dec_float dec_int
            "750:750,1" "500:1500,3" "10:10,1" DEF_LINE_HEIGHT).
  - reflexivity.
  - reflexivity.
Defined.

Lemma plan_invariants_witness :
  exists parms,
    TestParams_init dec_float dec_int "100:400,4" "100:900,9" "10:10,1"
      DEF_LINE_HEIGHT = Ok parms
    /\ (numFixedDims parms + numVarDims parms = 3)%Z
    /\ numVarDims parms = Z.of_nat (List.length (varDims parms))
    /\ (numVarDims parms <= 2)%Z.
Proof.
  eexists. split; [cbv; reflexivity|].
  edestruct (plan_invariants dec_float dec_int
               "100:400,4" "100:900,9" "10:10,1" DEF_LINE_HEIGHT)
    as (A & B & C & _); [reflexivity|].
  split; [exact A|]. split; [exact B|exact C].
Defined.

Lemma all_fixed_single_cut_witness :
  exists parms,
    TestParams_init dec_float dec_int "750.0:750.0,1" "1000.0:1000.0,1"
      "10.0:10.0,1" DEF_LINE_HEIGHT = Ok parms
    /\ numRows parms = 1%Z /\ numCols parms = 1%Z
    /\ exists st, traverse parms = Ok st
                  /\ List.length (cells (snd st)) = 1%nat.
Proof.
  edestruct (all_fixed_single_cut dec_float dec_int
               "750.0:750.0,1" "1000.0:1000.0,1" "10.0:10.0,1" DEF_LINE_HEIGHT)
    as (parms & I & _ & _ & R & C & _ & _ & st & T & L);
    try (cbv; reflexivity); try reflexivity.
  exists parms. split; [exact I|]. split; [exact R|]. split; [exact C|].
  exists st. split; [exact T|]. rewrite L. reflexivity.
Defined.


Lemma row_bounds_witness :
  exists parms,
    TestParams_init dec_float dec_int "100:600,6" "100:900,9" "10:10,1"
      DEF_LINE_HEIGHT = Ok parms
    /\ numRows parms = 6%Z
    /\ yIncr parms = DEF_LINE_HEIGHT + MAX_Y_SPACING
    /\ MAX_Y_DISTANCE < height parms.
Proof.
  eexists. split; [cbv; reflexivity|]. split; [reflexivity|].
  edestruct (row_bounds dec_float dec_int "100:600,6" "100:900,9" "10:10,1")
    as (_ & A & B); [reflexivity|].
  split; [apply A; discriminate|apply B; reflexivity].
Defined.

Lemma traverse_is_grid_witness :
  exists parms,
    TestParams_init dec_float dec_int "100:400,4" "100:900,9" "10:10,1"
      DEF_LINE_HEIGHT = Ok parms
    /\ exists parms', traverse parms = Ok (parms', grid_codes parms).
Proof.
  eexists. split; [cbv; reflexivity|].
  apply (traverse_is_grid dec_float dec_int
           "100:400,4" "100:900,9" "10:10,1" DEF_LINE_HEIGHT).
  reflexivity.
Defined.

Lemma cells_are_grid_witness :
  exists parms,
    TestParams_init dec_float dec_int "100:400,4" "100:900,9" "10:10,1"
      DEF_LINE_HEIGHT = Ok parms
    /\ exists st, traverse parms = Ok st
                  /\ cells (snd st) = grid_cells parms
                  /\ List.length (cells (snd st)) = 36%nat.
Proof.
  eexists. split; [cbv; reflexivity|].
  edestruct (cells_are_grid dec_float dec_int
               "100:400,4" "100:900,9" "10:10,1" DEF_LINE_HEIGHT)
    as (st & T & C & L); [reflexivity|].
  exists st. split; [exact T|]. split; [exact C|]. rewrite L. reflexivity.
Defined.


Lemma header_once_batches_glued_witness :
  exists o,
    GcodeOutput.init (fun _ => true) "laserTest.py" "now" "file" "-" = inr o
    /\ GcodeOutput.written
         (GcodeOutput.trace
            (fold_left (GcodeOutput.emit_batch 0) [["G21"; "G90"]; ["M05"]] o))
       = (("( Generated by: laserTest.py @ now )" ++ GcodeOutput.newline)
          ++ GcodeOutput.glue
               (map (GcodeOutput.join GcodeOutput.newline)
                    [["G21"; "G90"]; ["M05"]]))%string.
Proof.
  eexists. split; [reflexivity|].
  apply (header_once_batches_glued (fun _ => true) "laserTest.py" "now"
           "file" "-" _ 0 ["G21"; "G90"] [["M05"]]); reflexivity.
Defined.

Lemma two_batches_lose_a_break_witness :
  exists o,
    GcodeOutput.init (fun _ => true) "laserTest.py" "now" "FILE" "-" = inr o
    /\ GcodeOutput.written
         (GcodeOutput.trace
            (fold_left (GcodeOutput.emit_batch 0) [["G21"]; ["G90"]] o))
       <> GcodeOutput.written
            (GcodeOutput.trace
               (fold_left (GcodeOutput.emit_batch 0) [["G21"; "G90"]] o)).
Proof.
  eexists. split; [reflexivity|].
  apply (two_batches_lose_a_break (fun _ => true) "laserTest.py" "now"
           "FILE" "-" _ 0 ["G21"] ["G90"]); try reflexivity; discriminate.
Defined.

Lemma hdr_before_and_after_emit_witness :
  exists o o1,
    GcodeOutput.init (fun _ => true) "laserTest.py" "now" "FILE" "-" = inr o
    /\ GcodeOutput.hdrs 0 true ["Laser Cut Test Pattern Generator"] o
       = (o1, None)
    /\ snd (GcodeOutput.hdr 0 true "late" (GcodeOutput.emit o1))
       = Some GcodeOutput.HeaderClosed.
Proof.
  eexists. eexists. split; [reflexivity|]. split; [reflexivity|].
  apply (proj1 (proj2 (hdr_before_and_after_emit (fun _ => true)
                         "laserTest.py" "now" "FILE" "-" _ 0 [] []
                         eq_refl eq_refl))).
  reflexivity.
Defined.

Lemma GRBL_writes_nothing_witness :
  exists o,
    GcodeOutput.init (fun _ => true) "laserTest.py" "now" "grbl" "/dev/ttyUSB0"
    = inr o
    /\ GcodeOutput.written
         (GcodeOutput.trace
            (GcodeOutput.run
               [GcodeOutput.Compose 0 ["G21"; "G90"]; GcodeOutput.Emit] o))
       = ""%string.
Proof.
  eexists. split; [reflexivity|].
  apply (GRBL_writes_nothing (fun _ => true) "laserTest.py" "now" "grbl"
           "/dev/ttyUSB0" _
           [GcodeOutput.Compose 0 ["G21"; "G90"]; GcodeOutput.Emit]);
    reflexivity.
Defined.
